(** * BadgeLink filesystem handlers (badgelink_fs.c)

    A shallow embedding of the filesystem side of the BadgeLink device
    engine: the directory listing handler, the upload and download start
    handlers, the per-chunk transfer handlers and the transfer finish
    handler, together with the C library services they call (stdio
    streams over a small file store, [errno], the ESP-IDF CRC-32). *)

From Stdlib Require Import ZArith List String Ascii Lia Bool.
From stdpp Require Import base gmap strings list.
Import ListNotations.
Local Open Scope Z_scope.

(* ================================================================= *)
(** ** Machine integers *)

(** [uint32_t] arithmetic: the value is kept in [Z] and reduced after
    every operation that can leave the range. *)
Definition wrap32 (x : Z) : Z := x mod 2 ^ 32.

Definition byte_val (b : Byte.byte) : Z := Z.of_N (Byte.to_N b).

(* ================================================================= *)
(** ** esp_crc32_le (ESP-IDF, esp_crc.h)

    The ROM routine behind [esp_crc32_le(crc, buf, len)]: the reflected
    CRC-32 of polynomial 0xEDB88320, entered and left through a bitwise
    complement of the 32-bit accumulator, so that a previous result can
    be passed back in as [crc] to continue over further bytes.  The ROM
    code indexes a 256-entry table; [crc_byte] computes the same eight
    shift steps bit by bit. *)
Definition CRC32_POLY : Z := 0xEDB88320.

Definition crc_bit (c : Z) : Z :=
  if Z.testbit c 0 then Z.lxor (Z.shiftr c 1) CRC32_POLY else Z.shiftr c 1.

Definition crc_byte (c : Z) (b : Byte.byte) : Z :=
  Nat.iter 8 crc_bit (Z.lxor c (byte_val b)).

Definition esp_crc32_le (crc : Z) (buf : list Byte.byte) : Z :=
  Z.lxor (fold_left crc_byte buf (Z.lxor crc 0xFFFFFFFF)) 0xFFFFFFFF.

(** The CRC-32 of a whole byte string: the accumulator starts at 0. *)
Definition crc32 (buf : list Byte.byte) : Z := esp_crc32_le 0 buf.

(* ================================================================= *)
(** ** C strings *)

(** [strlcpy(dst, src, size)]: at most [size - 1] characters arrive. *)
Definition strlcpy (size : nat) (src : string) : string :=
  String.substring 0 (size - 1) src.

(** [strncmp(s, lit, strlen(lit)) == 0] *)
Definition strncmp_eq (s lit : string) : bool := String.prefix lit s.

(* ================================================================= *)
(** ** The C library under the handlers

    Files live in a path-indexed store.  A regular file carries its
    bytes and, optionally, the offset of a byte the medium cannot
    deliver ([f_rfault]): reads stop short there and raise the stream's
    error indicator.  A directory carries the entries [readdir] yields,
    in the order it yields them.  [quota] is the number of bytes the
    medium still accepts and the [errno] a write past it raises
    ([ENOSPC] for a full medium, anything else for a failing one). *)

Definition ENOENT : Z := 2.
Definition EIO : Z := 5.
Definition EBADF : Z := 9.
Definition ENOTDIR : Z := 20.
Definition EISDIR : Z := 21.
Definition ENOSPC : Z := 28.

Definition DT_REG : Z := 1.
Definition DT_DIR : Z := 2.

Record dirent := { d_name : string; d_type : Z }.

Record FileNode := { f_data : list Byte.byte; f_rfault : option nat }.

Inductive Node :=
| File (f : FileNode)
| Dir (ents : list dirent).

(** A [FILE] stream: the path it was opened on, whether it may be
    written, the file position and the two indicators of stdio. *)
Record FILE := {
  s_path : string;
  s_write : bool;
  s_pos : nat;
  s_eof : bool;
  s_err : bool }.

Record Libc := {
  nodes : gmap string Node;
  quota : option (nat * Z);
  fstat_fault : option Z;
  streams : gmap nat FILE;
  next_stream : nat;
  errno : Z }.

Definition set_errno (e : Z) (os : Libc) : Libc :=
  {| nodes := nodes os; quota := quota os; fstat_fault := fstat_fault os;
     streams := streams os; next_stream := next_stream os; errno := e |}.

Definition set_nodes (n : gmap string Node) (os : Libc) : Libc :=
  {| nodes := n; quota := quota os; fstat_fault := fstat_fault os;
     streams := streams os; next_stream := next_stream os; errno := errno os |}.

Definition set_quota (q : option (nat * Z)) (os : Libc) : Libc :=
  {| nodes := nodes os; quota := q; fstat_fault := fstat_fault os;
     streams := streams os; next_stream := next_stream os; errno := errno os |}.

Definition set_streams (s : gmap nat FILE) (os : Libc) : Libc :=
  {| nodes := nodes os; quota := quota os; fstat_fault := fstat_fault os;
     streams := s; next_stream := next_stream os; errno := errno os |}.

(** A fresh stream on [path]; the result is the [FILE*]. *)
Definition new_stream (path : string) (w : bool) (os : Libc) : option nat * Libc :=
  let h := next_stream os in
  (Some h,
   {| nodes := nodes os; quota := quota os; fstat_fault := fstat_fault os;
      streams := <[h := {| s_path := path; s_write := w; s_pos := 0%nat;
                           s_eof := false; s_err := false |}]> (streams os);
      next_stream := S h; errno := errno os |}).

(** The directory part of a path: everything before the last '/'.
    [None] when the path has no '/'. *)
Fixpoint dirname (s : string) : option string :=
  match s with
  | EmptyString => None
  | String c r =>
      match dirname r with
      | Some d => Some (String c d)
      | None => if Ascii.eqb c "/"%char then Some EmptyString else None
      end
  end.

(** The directory a new file would be created in exists: the root, or a
    directory node. *)
Definition parent_exists (path : string) (os : Libc) : bool :=
  match dirname path with
  | None => true
  | Some EmptyString => true
  | Some d => match nodes os !! d with Some (Dir _) => true | _ => false end
  end.

(** [fopen(path, "rb")] *)
Definition fopen_rb (path : string) (os : Libc) : option nat * Libc :=
  match nodes os !! path with
  | Some (File _) => new_stream path false os
  | Some (Dir _) => (None, set_errno EISDIR os)
  | None => (None, set_errno ENOENT os)
  end.

(** [fopen(path, "w+b")]: an existing file is truncated, a missing one is
    created when its directory exists. *)
Definition fopen_wb (path : string) (os : Libc) : option nat * Libc :=
  match nodes os !! path with
  | Some (Dir _) => (None, set_errno EISDIR os)
  | Some (File _) =>
      new_stream path true
        (set_nodes (<[path := File {| f_data := []; f_rfault := None |}]> (nodes os)) os)
  | None =>
      if parent_exists path os then
        new_stream path true
          (set_nodes (<[path := File {| f_data := []; f_rfault := None |}]> (nodes os)) os)
      else (None, set_errno ENOENT os)
  end.

(** [fclose(f)].  Closing a null or stale pointer is undefined in C; the
    model leaves the library as it is. *)
Definition fclose (fd : option nat) (os : Libc) : Libc :=
  match fd with
  | Some h => set_streams (delete h (streams os)) os
  | None => os
  end.

(** The bytes a read at [pos] can still deliver: up to the end of the
    file, or up to the faulty offset when that comes first. *)
Definition read_limit (f : FileNode) : nat :=
  match f_rfault f with
  | Some k => Nat.min k (length (f_data f))
  | None => length (f_data f)
  end.

Definition faulty (f : FileNode) : bool :=
  match f_rfault f with
  | Some k => (k <? length (f_data f))%nat
  | None => false
  end.

(** [fread(buf, 1, n, f)]: the bytes delivered and the library after the
    call.  A short count sets the end-of-file indicator, or the error
    indicator (and [errno]) when the medium failed. *)
Definition fread (n : nat) (fd : option nat) (os : Libc) : list Byte.byte * Libc :=
  match fd with
  | None => ([], set_errno EBADF os)
  | Some h =>
      match streams os !! h with
      | None => ([], set_errno EBADF os)
      | Some s =>
          match nodes os !! s_path s with
          | Some (File f) =>
              let got := take (Nat.min n (read_limit f - s_pos s)) (drop (s_pos s) (f_data f)) in
              let short := (length got <? n)%nat in
              let bad := short && faulty f in
              let s' := {| s_path := s_path s; s_write := s_write s;
                           s_pos := (s_pos s + length got)%nat;
                           s_eof := s_eof s || (short && negb (faulty f));
                           s_err := s_err s || bad |} in
              let os' := set_streams (<[h := s']> (streams os)) os in
              (got, if bad then set_errno EIO os' else os')
          | _ =>
              ([], set_errno EBADF
                     (set_streams (<[h := {| s_path := s_path s; s_write := s_write s;
                                             s_pos := s_pos s; s_eof := s_eof s;
                                             s_err := true |}]> (streams os)) os))
          end
      end
  end.

(** [ferror(f)] *)
Definition ferror (fd : option nat) (os : Libc) : bool :=
  match fd with
  | Some h => match streams os !! h with Some s => s_err s | None => false end
  | None => false
  end.

(** [fseek(f, 0, SEEK_SET)]: back to the start; the end-of-file indicator
    is cleared, the error indicator is not. *)
Definition fseek_set0 (fd : option nat) (os : Libc) : Libc :=
  match fd with
  | Some h =>
      match streams os !! h with
      | Some s =>
          set_streams (<[h := {| s_path := s_path s; s_write := s_write s;
                                 s_pos := 0%nat; s_eof := false;
                                 s_err := s_err s |}]> (streams os)) os
      | None => os
      end
  | None => os
  end.

(** The bytes of a file after [data] is stored at [pos]. *)
Definition store_at (pos : nat) (data old : list Byte.byte) : list Byte.byte :=
  take pos old ++ replicate (pos - length old) Byte.x00 ++ data
    ++ drop (pos + length data) old.

(** [fwrite(buf, 1, n, f)]: the count written and the library after the
    call.  The part of the buffer that the medium still accepts reaches
    the file; a short count raises the stream's error indicator and sets
    [errno] to the medium's error. *)
Definition fwrite (data : list Byte.byte) (fd : option nat) (os : Libc) : nat * Libc :=
  match fd with
  | None => (0%nat, set_errno EBADF os)
  | Some h =>
      match streams os !! h with
      | None => (0%nat, set_errno EBADF os)
      | Some s =>
          match s_write s, nodes os !! s_path s with
          | true, Some (File f) =>
              let room := match quota os with
                          | Some (k, _) => Nat.min k (length data)
                          | None => length data
                          end in
              let put := take room data in
              let short := (room <? length data)%nat in
              let s' := {| s_path := s_path s; s_write := true;
                           s_pos := (s_pos s + room)%nat; s_eof := s_eof s;
                           s_err := s_err s || short |} in
              let os1 :=
                {| nodes := <[s_path s := File {| f_data := store_at (s_pos s) put (f_data f);
                                                  f_rfault := f_rfault f |}]> (nodes os);
                   quota := match quota os with
                            | Some (k, e) => Some ((k - room)%nat, e)
                            | None => None
                            end;
                   fstat_fault := fstat_fault os;
                   streams := <[h := s']> (streams os);
                   next_stream := next_stream os;
                   errno := match quota os with
                            | Some (_, e) => if short then e else errno os
                            | None => errno os
                            end |} in
              (room, os1)
          | _, _ =>
              (0%nat, set_errno EBADF
                        (set_streams (<[h := {| s_path := s_path s; s_write := s_write s;
                                                s_pos := s_pos s; s_eof := s_eof s;
                                                s_err := true |}]> (streams os)) os))
          end
      end
  end.

(** [fstat(fileno(f), &statbuf)]: [Some st_size], or [None] with [errno]
    set when the driver cannot answer. *)
Definition fstat_size (fd : option nat) (os : Libc) : option Z * Libc :=
  match fstat_fault os with
  | Some e => (None, set_errno e os)
  | None =>
      match fd with
      | Some h =>
          match streams os !! h with
          | Some s =>
              match nodes os !! s_path s with
              | Some (File f) => (Some (Z.of_nat (length (f_data f))), os)
              | _ => (None, set_errno EBADF os)
              end
          | None => (None, set_errno EBADF os)
          end
      | None => (None, set_errno EBADF os)
      end
  end.

(** [unlink(path)]: [true] when the file was removed. *)
Definition unlink (path : string) (os : Libc) : bool * Libc :=
  match nodes os !! path with
  | Some (File _) => (true, set_nodes (delete path (nodes os)) os)
  | Some (Dir _) => (false, set_errno EISDIR os)
  | None => (false, set_errno ENOENT os)
  end.

(** [opendir(path)]: the entries the following [readdir] calls return,
    one by one, until [readdir] returns null. *)
Definition opendir (path : string) (os : Libc) : option (list dirent) * Libc :=
  match nodes os !! path with
  | Some (Dir ents) => (Some ents, os)
  | Some (File _) => (None, set_errno ENOTDIR os)
  | None => (None, set_errno ENOENT os)
  end.

(* ================================================================= *)
(** ** Packets *)

(** Modelled from the spec: the status codes of the generated protocol
    header, which is not part of the sources at hand. *)
Inductive StatusCode :=
| StatusOk
| StatusNotSupported
| StatusNotFound
| StatusExists
| StatusIsDir
| StatusIsFile
| StatusNotEmpty
| StatusNoSpace
| StatusIllState
| StatusInternalError.

(** [badgelink_FsActionReq]: the fields the handlers read. *)
Record FsActionReq := {
  req_path : string;
  req_size : Z;
  req_crc32 : Z;
  req_list_offset : Z }.

(** [badgelink_FsDirent] and [badgelink_FsDirentList]. *)
Record FsDirent := { name : string; is_dir : bool }.

Record FsDirentList := {
  list_ : list FsDirent;
  list_count : nat;
  total_size : Z }.

(** The payload selected by [which_resp] (and [which_val] inside an
    [fs_resp]); [RespNone] is a response that carries its status only. *)
Inductive Resp :=
| RespNone
| RespFsList (l : FsDirentList)
| RespFsCrc32 (crc32_ : Z) (size_ : Z)
| RespDownloadChunk (position : Z) (data : list Byte.byte).

Record Packet := { status_code : StatusCode; resp : Resp }.

(** Capacities fixed by the generated packet structures, which are not
    part of the sources at hand: the entries one list response holds
    ([sizeof(resp->list) / sizeof(badgelink_FsDirent)]), the size of an
    entry's name buffer and the size of a chunk's byte buffer. *)
Record Config := {
  LIST_MAX : nat;
  NAME_SIZE : nat;
  CHUNK_SIZE : nat }.

(* ================================================================= *)
(** ** Engine state *)

(** Modelled from the spec: the transfer type kept by badgelink.c, which
    is not part of the sources at hand: no transfer, or a transfer owned
    by the filesystem or by the application store. *)
Inductive xfer_type_t :=
| BADGELINK_XFER_NONE
| BADGELINK_XFER_FS
| BADGELINK_XFER_APPFS.

(** The globals of badgelink.c that the handlers use, the statics of
    badgelink_fs.c, the C library, and the packets handed to the
    transport so far (oldest first). *)
Record State := {
  badgelink_xfer_type : xfer_type_t;
  badgelink_xfer_is_upload : bool;
  badgelink_xfer_size : Z;
  badgelink_xfer_pos : Z;
  protocol_version : Z;
  xfer_path : string;
  xfer_fd : option nat;
  xfer_is_sd : bool;
  xfer_crc32 : Z;
  running_crc : Z;
  os : Libc;
  sent : list Packet }.

Definition set_os (o : Libc) (st : State) : State :=
  {| badgelink_xfer_type := badgelink_xfer_type st;
     badgelink_xfer_is_upload := badgelink_xfer_is_upload st;
     badgelink_xfer_size := badgelink_xfer_size st;
     badgelink_xfer_pos := badgelink_xfer_pos st;
     protocol_version := protocol_version st;
     xfer_path := xfer_path st; xfer_fd := xfer_fd st;
     xfer_is_sd := xfer_is_sd st; xfer_crc32 := xfer_crc32 st;
     running_crc := running_crc st; os := o; sent := sent st |}.

Definition set_running_crc (c : Z) (st : State) : State :=
  {| badgelink_xfer_type := badgelink_xfer_type st;
     badgelink_xfer_is_upload := badgelink_xfer_is_upload st;
     badgelink_xfer_size := badgelink_xfer_size st;
     badgelink_xfer_pos := badgelink_xfer_pos st;
     protocol_version := protocol_version st;
     xfer_path := xfer_path st; xfer_fd := xfer_fd st;
     xfer_is_sd := xfer_is_sd st; xfer_crc32 := xfer_crc32 st;
     running_crc := c; os := os st; sent := sent st |}.

(** [strlcpy(xfer_path, ...)], [xfer_is_sd = ...], [xfer_fd = ...] *)
Definition set_target (p : string) (sd : bool) (fd : option nat) (st : State) : State :=
  {| badgelink_xfer_type := badgelink_xfer_type st;
     badgelink_xfer_is_upload := badgelink_xfer_is_upload st;
     badgelink_xfer_size := badgelink_xfer_size st;
     badgelink_xfer_pos := badgelink_xfer_pos st;
     protocol_version := protocol_version st;
     xfer_path := p; xfer_fd := fd; xfer_is_sd := sd;
     xfer_crc32 := xfer_crc32 st;
     running_crc := running_crc st; os := os st; sent := sent st |}.

(** The "Set up transfer" assignments. *)
Definition set_xfer (t : xfer_type_t) (up : bool) (size pos : Z) (st : State) : State :=
  {| badgelink_xfer_type := t;
     badgelink_xfer_is_upload := up;
     badgelink_xfer_size := size;
     badgelink_xfer_pos := pos;
     protocol_version := protocol_version st;
     xfer_path := xfer_path st; xfer_fd := xfer_fd st;
     xfer_is_sd := xfer_is_sd st; xfer_crc32 := xfer_crc32 st;
     running_crc := running_crc st; os := os st; sent := sent st |}.

Definition set_xfer_crc32 (c : Z) (st : State) : State :=
  {| badgelink_xfer_type := badgelink_xfer_type st;
     badgelink_xfer_is_upload := badgelink_xfer_is_upload st;
     badgelink_xfer_size := badgelink_xfer_size st;
     badgelink_xfer_pos := badgelink_xfer_pos st;
     protocol_version := protocol_version st;
     xfer_path := xfer_path st; xfer_fd := xfer_fd st;
     xfer_is_sd := xfer_is_sd st; xfer_crc32 := c;
     running_crc := running_crc st; os := os st; sent := sent st |}.

(** Modelled from the spec: [badgelink_send_packet] of badgelink.c,
    which is not part of the sources at hand.  The response in the
    packet buffer is encoded and handed to the transport; here it joins
    the packets sent. *)
Definition badgelink_send_packet (p : Packet) (st : State) : State :=
  {| badgelink_xfer_type := badgelink_xfer_type st;
     badgelink_xfer_is_upload := badgelink_xfer_is_upload st;
     badgelink_xfer_size := badgelink_xfer_size st;
     badgelink_xfer_pos := badgelink_xfer_pos st;
     protocol_version := protocol_version st;
     xfer_path := xfer_path st; xfer_fd := xfer_fd st;
     xfer_is_sd := xfer_is_sd st; xfer_crc32 := xfer_crc32 st;
     running_crc := running_crc st; os := os st;
     sent := sent st ++ [p] |}.

(** Modelled from the spec: the [badgelink_status_*] helpers of
    badgelink.c, which is not part of the sources at hand.  Each sends a
    response that consists of its status code. *)
Definition badgelink_send_status (c : StatusCode) (st : State) : State :=
  badgelink_send_packet {| status_code := c; resp := RespNone |} st.

Definition badgelink_status_ok := badgelink_send_status StatusOk.
Definition badgelink_status_not_found := badgelink_send_status StatusNotFound.
Definition badgelink_status_is_dir := badgelink_send_status StatusIsDir.
Definition badgelink_status_no_space := badgelink_send_status StatusNoSpace.
Definition badgelink_status_ill_state := badgelink_send_status StatusIllState.
Definition badgelink_status_int_err := badgelink_send_status StatusInternalError.

(** Modelled from the spec: [badgelink_get_protocol_version] of
    badgelink.c, the accessor of the negotiated version. *)
Definition badgelink_get_protocol_version (st : State) : Z := protocol_version st.

(** [bl_sd_fopen] and [bl_sd_fclose], in the configuration without
    CONFIG_FATFS_USE_FASTOPEN: plain [fopen], and [fclose] behind a null
    check. *)
Definition bl_sd_fopen_rb := fopen_rb.
Definition bl_sd_fopen_wb := fopen_wb.

Definition bl_sd_fclose (fd : option nat) (os : Libc) : Libc :=
  match fd with
  | Some _ => fclose fd os
  | None => os
  end.

(** The close both branches of [xfer_is_sd] perform. *)
Definition xfer_close (st : State) : State :=
  if xfer_is_sd st then set_os (bl_sd_fclose (xfer_fd st) (os st)) st
  else set_os (fclose (xfer_fd st) (os st)) st.

(* ================================================================= *)
(** ** badgelink_fs_xfer_upload *)

Definition badgelink_fs_xfer_upload (chunk : list Byte.byte) (st : State) : State :=
  let '(len, os1) := fwrite chunk (xfer_fd st) (os st) in
  let st1 := set_os os1 st in
  if (len <? length chunk)%nat then
    if errno os1 =? ENOSPC then badgelink_status_no_space st1
    else badgelink_status_int_err st1
  else
    badgelink_status_ok (set_running_crc (esp_crc32_le (running_crc st1) chunk) st1).

(* ================================================================= *)
(** ** badgelink_fs_xfer_download *)

Definition badgelink_fs_xfer_download (cfg : Config) (st : State) : State :=
  let position := badgelink_xfer_pos st in
  let '(bytes, os1) := fread (CHUNK_SIZE cfg) (xfer_fd st) (os st) in
  let st1 := set_os os1 st in
  if ferror (xfer_fd st1) (os st1) then badgelink_status_int_err st1
  else
    let st2 := if 2 <=? badgelink_get_protocol_version st1
               then set_running_crc (esp_crc32_le (running_crc st1) bytes) st1
               else st1 in
    badgelink_send_packet
      {| status_code := StatusOk; resp := RespDownloadChunk position bytes |} st2.

(* ================================================================= *)
(** ** badgelink_fs_xfer_stop *)

Definition badgelink_fs_xfer_stop (abnormal : bool) (st : State) : State :=
  if abnormal then
    let st1 := xfer_close st in
    if badgelink_xfer_is_upload st1 then
      set_os (snd (unlink (xfer_path st1) (os st1))) st1
    else st1
  else if badgelink_xfer_is_upload st then
    let st1 := xfer_close st in
    if negb (running_crc st1 =? xfer_crc32 st1) then
      badgelink_status_int_err (set_os (snd (unlink (xfer_path st1) (os st1))) st1)
    else badgelink_status_ok st1
  else
    let st1 := xfer_close st in
    if 2 <=? badgelink_get_protocol_version st1 then
      badgelink_send_packet
        {| status_code := StatusOk;
           resp := RespFsCrc32 (running_crc st1) (badgelink_xfer_size st1) |} st1
    else badgelink_status_ok st1.

(* ================================================================= *)
(** ** badgelink_fs_list *)

(** [strcmp(ent->d_name, ".") || strcmp(ent->d_name, "..")]: [strcmp] is
    nonzero exactly when its arguments differ. *)
Definition list_counts (d_name : string) : bool :=
  negb (String.eqb d_name ".") || negb (String.eqb d_name "..").

(** The entry stored for [ent]: [strlcpy] of the name into the entry's
    buffer, and [ent->d_type == DT_DIR]. *)
Definition to_entry (cfg : Config) (ent : dirent) : FsDirent :=
  {| name := strlcpy (NAME_SIZE cfg) (d_name ent);
     is_dir := d_type ent =? DT_DIR |}.

(** The [while (ent)] loop, over the entries [readdir] is still to
    return. *)
Fixpoint list_loop (cfg : Config) (ents : list dirent) (skip : Z)
    (resp : FsDirentList) : FsDirentList :=
  match ents with
  | [] => resp
  | ent :: rest =>
      if list_counts (d_name ent) then
        let resp1 := {| list_ := list_ resp; list_count := list_count resp;
                        total_size := wrap32 (total_size resp + 1) |} in
        if negb (skip =? 0) then list_loop cfg rest (skip - 1) resp1
        else if (list_count resp1 <? LIST_MAX cfg)%nat then
          list_loop cfg rest skip
            {| list_ := list_ resp1 ++ [to_entry cfg ent];
               list_count := S (list_count resp1);
               total_size := total_size resp1 |}
        else list_loop cfg rest skip resp1
      else list_loop cfg rest skip resp
  end.

Definition badgelink_fs_list (cfg : Config) (req : FsActionReq) (st : State) : State :=
  match opendir (req_path req) (os st) with
  | (None, os1) =>
      if errno os1 =? ENOENT then badgelink_status_not_found (set_os os1 st)
      else badgelink_status_int_err (set_os os1 st)
  | (Some ents, os1) =>
      let skip := wrap32 (req_list_offset req) in
      let resp := list_loop cfg ents skip
                    {| list_ := []; list_count := 0%nat; total_size := 0 |} in
      badgelink_send_packet
        {| status_code := StatusOk; resp := RespFsList resp |} (set_os os1 st)
  end.

(* ================================================================= *)
(** ** badgelink_fs_upload *)

(** The answer to a failed [fopen]. *)
Definition open_failed (st : State) : State :=
  if errno (os st) =? ENOENT then badgelink_status_not_found st
  else if errno (os st) =? EISDIR then badgelink_status_is_dir st
  else badgelink_status_int_err st.

Definition badgelink_fs_upload (req : FsActionReq) (st : State) : State :=
  match badgelink_xfer_type st with
  | BADGELINK_XFER_NONE =>
      let sd := strncmp_eq (req_path req) "/sd" in
      let '(fd, os1) := if sd then bl_sd_fopen_wb (req_path req) (os st)
                        else fopen_wb (req_path req) (os st) in
      let st1 := set_os os1 (set_target (strlcpy 256 (req_path req)) sd fd st) in
      match fd with
      | None => open_failed st1
      | Some _ =>
          let st2 := set_xfer BADGELINK_XFER_FS true (wrap32 (req_size req)) 0 st1 in
          let st3 := set_running_crc 0 (set_xfer_crc32 (wrap32 (req_crc32 req)) st2) in
          badgelink_status_ok st3
      end
  | _ => badgelink_status_ill_state st
  end.

(* ================================================================= *)
(** ** badgelink_fs_download *)

(** The version 1 loop
    [while (rcount) { rcount = fread(tmp, 1, sizeof(tmp), xfer_fd);
                      crc = esp_crc32_le(crc, tmp, rcount); size += rcount; }]
    with [tmp] of 128 bytes.  [fuel] bounds the iterations; [None] means
    the bound was reached before a read returned 0. *)
Fixpoint crc_scan (fuel : nat) (fd : option nat) (crc size : Z) (os : Libc)
    : option (Z * Z * Libc) :=
  match fuel with
  | O => None
  | S fuel' =>
      let '(tmp, os1) := fread 128 fd os in
      let rcount := wrap32 (Z.of_nat (length tmp)) in
      let crc1 := esp_crc32_le crc tmp in
      let size1 := wrap32 (size + rcount) in
      if rcount =? 0 then Some (crc1, size1, os1)
      else crc_scan fuel' fd crc1 size1 os1
  end.

(** The response and set-up common to both versions, once [crc] and
    [size] are known. *)
Definition download_started (crc size : Z) (st : State) : State :=
  let st1 := set_xfer BADGELINK_XFER_FS false size 0 st in
  badgelink_send_packet
    {| status_code := StatusOk; resp := RespFsCrc32 crc size |} st1.

Definition badgelink_fs_download (fuel : nat) (req : FsActionReq) (st : State)
    : option State :=
  match badgelink_xfer_type st with
  | BADGELINK_XFER_NONE =>
      let sd := strncmp_eq (req_path req) "/sd" in
      let '(fd, os1) := if sd then bl_sd_fopen_rb (req_path req) (os st)
                        else fopen_rb (req_path req) (os st) in
      let st1 := set_os os1 (set_target (strlcpy 256 (req_path req)) sd fd st) in
      match fd with
      | None => Some (open_failed st1)
      | Some _ =>
          if 2 <=? badgelink_get_protocol_version st1 then
            match fstat_size (xfer_fd st1) (os st1) with
            | (None, os2) =>
                Some (badgelink_status_int_err (xfer_close (set_os os2 st1)))
            | (Some st_size, os2) =>
                Some (download_started 0 (wrap32 st_size)
                        (set_running_crc 0 (set_os os2 st1)))
            end
          else
            match crc_scan fuel (xfer_fd st1) 0 0 (os st1) with
            | None => None
            | Some (crc, size, os2) =>
                Some (download_started crc size
                        (set_os (fseek_set0 (xfer_fd st1) os2) st1))
            end
      end
  | _ => Some (badgelink_status_ill_state st)
  end.

(* ================================================================= *)
(** ** Runs of chunk requests *)

(** A sequence of UploadChunk requests, handled one after the other. *)
Definition upload_run (chunks : list (list Byte.byte)) (st : State) : State :=
  fold_left (fun s c => badgelink_fs_xfer_upload c s) chunks st.

(** [n] XferContinue requests of a download, handled one after the
    other. *)
Definition download_run (cfg : Config) (n : nat) (st : State) : State :=
  Nat.iter n (badgelink_fs_xfer_download cfg) st.

(** The packets a handler run added to the ones sent before it. *)
Definition emitted (before after : State) : list Packet :=
  drop (length (sent before)) (sent after).

(** The status of the last packet sent. *)
Definition last_status (st : State) : option StatusCode :=
  status_code <$> last (sent st).

(** The bytes of the DownloadChunk packets among [ps], in order. *)
Definition chunk_bytes (ps : list Packet) : list Byte.byte :=
  concat (map (fun p => match resp p with
                        | RespDownloadChunk _ d => d
                        | _ => []
                        end) ps).

(** The chunks of a run that were answered StatusOk, in order. *)
Fixpoint accepted (chunks : list (list Byte.byte)) (st : State) : list (list Byte.byte) :=
  match chunks with
  | [] => []
  | c :: rest =>
      let st1 := badgelink_fs_xfer_upload c st in
      match last_status st1 with
      | Some StatusOk => c :: accepted rest st1
      | _ => accepted rest st1
      end
  end.

(** Every chunk of the run is answered StatusOk. *)
Definition all_accepted (chunks : list (list Byte.byte)) (st : State) : Prop :=
  accepted chunks st = chunks.

(* ================================================================= *)
(** ** Sample configurations and worlds *)

Definition bytes_of (s : string) : list Byte.byte := list_byte_of_string s.

Definition cfg0 : Config := {| LIST_MAX := 4; NAME_SIZE := 16; CHUNK_SIZE := 4 |}.

(** A store with a directory "/d" whose listing starts with the dot
    entries, a file "/a.bin" of nine bytes, and the same nine bytes in
    "/bad.bin", whose medium fails at offset 4. *)
Definition nodes0 : gmap string Node :=
  <["/d" := Dir [ {| d_name := "."; d_type := DT_DIR |};
                  {| d_name := ".."; d_type := DT_DIR |};
                  {| d_name := "a.txt"; d_type := DT_REG |} ]]>
  (<["/a.bin" := File {| f_data := bytes_of "123456789"; f_rfault := None |}]>
  (<["/bad.bin" := File {| f_data := bytes_of "123456789"; f_rfault := Some 4%nat |}]> ∅)).

Definition libc0 : Libc :=
  {| nodes := nodes0; quota := None; fstat_fault := None;
     streams := ∅; next_stream := 3%nat; errno := 0 |}.

(** The engine with no transfer, at protocol version [v]. *)
Definition idle (v : Z) : State :=
  {| badgelink_xfer_type := BADGELINK_XFER_NONE;
     badgelink_xfer_is_upload := false;
     badgelink_xfer_size := 0;
     badgelink_xfer_pos := 0;
     protocol_version := v;
     xfer_path := ""; xfer_fd := None; xfer_is_sd := false;
     xfer_crc32 := 0; running_crc := 0;
     os := libc0; sent := [] |}.

Definition req_for (path : string) (size crc : Z) : FsActionReq :=
  {| req_path := path; req_size := size; req_crc32 := crc; req_list_offset := 0 |}.

(** An upload of "/up.bin" that has just been started, announcing the
    CRC-32 [crc]. *)
Definition uploading (crc : Z) : State :=
  badgelink_fs_upload (req_for "/up.bin" 9 crc) (idle 2).

(** The same, on a medium that accepts [k] more bytes and then fails
    with [e]. *)
Definition uploading_tight (k : nat) (e : Z) : State :=
  set_os (set_quota (Some (k, e)) (os (uploading 0))) (uploading 0).

(** A download of "/a.bin" that has just been started at version [v]. *)
Definition downloading (v : Z) : State :=
  match badgelink_fs_download 16 (req_for "/a.bin" 0 0) (idle v) with
  | Some st => st
  | None => idle v
  end.

(* ================================================================= *)
(** ** Further C library services: mkdir and rmdir *)

Definition EEXIST : Z := 17.
Definition ENOTEMPTY : Z := 90.

(** The entry is "." or "..". *)
Definition is_dot (e : dirent) : bool :=
  String.eqb (d_name e) "." || String.eqb (d_name e) "..".

(** The path [p] lies directly inside the directory [dir]. *)
Definition inside (dir p : string) : bool :=
  match dirname p with
  | Some d => String.eqb d dir
  | None => false
  end.

(** The store holds a path inside [dir]. *)
Definition has_child (dir : string) (os : Libc) : bool :=
  existsb (inside dir) (map fst (map_to_list (nodes os))).

(** [mkdir(path, 0777)]: [true] when the directory was created. *)
Definition mkdir (path : string) (os : Libc) : bool * Libc :=
  match nodes os !! path with
  | Some _ => (false, set_errno EEXIST os)
  | None =>
      if parent_exists path os
      then (true, set_nodes (<[path := Dir []]> (nodes os)) os)
      else (false, set_errno ENOENT os)
  end.

(** [rmdir(path)]: [true] when the directory was removed.  A directory
    can be removed when its listing holds dot entries at most and the
    store holds no path inside it. *)
Definition rmdir (path : string) (os : Libc) : bool * Libc :=
  match nodes os !! path with
  | None => (false, set_errno ENOENT os)
  | Some (File _) => (false, set_errno ENOTDIR os)
  | Some (Dir ents) =>
      if forallb is_dot ents && negb (has_child path os)
      then (true, set_nodes (delete path (nodes os)) os)
      else (false, set_errno ENOTEMPTY os)
  end.

(* ================================================================= *)
(** ** badgelink_fs_delete, badgelink_fs_mkdir, badgelink_fs_rmdir *)

(** Modelled from the spec: further [badgelink_status_*] helpers of
    badgelink.c, as above. *)
Definition badgelink_status_exists := badgelink_send_status StatusExists.
Definition badgelink_status_is_file := badgelink_send_status StatusIsFile.
Definition badgelink_status_not_empty := badgelink_send_status StatusNotEmpty.

Definition badgelink_fs_delete (req : FsActionReq) (st : State) : State :=
  let '(ok, os1) := unlink (req_path req) (os st) in
  let st1 := set_os os1 st in
  if negb ok then
    if errno os1 =? ENOENT then badgelink_status_not_found st1
    else if errno os1 =? EISDIR then badgelink_status_is_dir st1
    else badgelink_status_int_err st1
  else badgelink_status_ok st1.

Definition badgelink_fs_mkdir (req : FsActionReq) (st : State) : State :=
  let '(ok, os1) := mkdir (req_path req) (os st) in
  let st1 := set_os os1 st in
  if negb ok then
    if errno os1 =? EEXIST then badgelink_status_exists st1
    else if errno os1 =? ENOENT then badgelink_status_not_found st1
    else badgelink_status_int_err st1
  else badgelink_status_ok st1.

Definition badgelink_fs_rmdir (req : FsActionReq) (st : State) : State :=
  let '(ok, os1) := rmdir (req_path req) (os st) in
  let st1 := set_os os1 st in
  if negb ok then
    if errno os1 =? ENOENT then badgelink_status_not_found st1
    else if errno os1 =? ENOTEMPTY then badgelink_status_not_empty st1
    else if errno os1 =? ENOTDIR then badgelink_status_is_file st1
    else if errno os1 =? ENOENT then badgelink_status_not_found st1
    else badgelink_status_int_err st1
  else badgelink_status_ok st1.

(* ================================================================= *)
(** ** bl_sd_fopen and bl_sd_fclose with CONFIG_FATFS_USE_FASTOPEN

    In this configuration an opened stream is given a stdio buffer from
    the DMA-capable heap, and the one pair of statics [bl_fast_file],
    [bl_fast_buffer] remembers which stream owns which buffer.  The heap
    is the set of live buffers, the next address and the number of
    further buffers that still fit. *)

Record DmaHeap := {
  live : gset nat;
  next_buf : nat;
  room : nat }.

Record FastIO := {
  bl_fast_file : option nat;
  bl_fast_buffer : option nat;
  heap : DmaHeap }.

(** [heap_caps_malloc(BADGELINK_STDIO_BUF_SIZE, ...)] *)
Definition heap_caps_malloc (hp : DmaHeap) : option nat * DmaHeap :=
  match room hp with
  | O => (None, hp)
  | S r => (Some (next_buf hp),
            {| live := {[next_buf hp]} ∪ live hp;
               next_buf := S (next_buf hp); room := r |})
  end.

(** [free(buf)] *)
Definition free (b : nat) (hp : DmaHeap) : DmaHeap :=
  {| live := live hp ∖ {[b]}; next_buf := next_buf hp; room := S (room hp) |}.

(** [bl_sd_fopen(path, mode)]; [fopen_mode] is [fopen] at that mode. *)
Definition bl_sd_fopen_fast (fopen_mode : string -> Libc -> option nat * Libc)
    (path : string) (io : FastIO) (os : Libc) : option nat * FastIO * Libc :=
  let '(f, os1) := fopen_mode path os in
  match f with
  | None => (None, io, os1)
  | Some h =>
      match heap_caps_malloc (heap io) with
      | (Some buf, hp) =>
          (Some h, {| bl_fast_file := Some h; bl_fast_buffer := Some buf; heap := hp |}, os1)
      | (None, hp) =>
          (Some h, {| bl_fast_file := bl_fast_file io;
                      bl_fast_buffer := bl_fast_buffer io; heap := hp |}, os1)
      end
  end.

(** [bl_sd_fclose(f)] *)
Definition bl_sd_fclose_fast (f : option nat) (io : FastIO) (os : Libc) : FastIO * Libc :=
  match f with
  | None => (io, os)
  | Some h =>
      match bl_fast_buffer io with
      | Some buf =>
          if bool_decide (bl_fast_file io = Some h) then
            ({| bl_fast_file := None; bl_fast_buffer := None;
                heap := free buf (heap io) |}, fclose f os)
          else (io, fclose f os)
      | None => (io, fclose f os)
      end
  end.

(* ================================================================= *)
(** ** Whole transfers and state conditions *)

(** An upload from its start request over its chunks to a normal
    finish. *)
Definition upload_transfer (req : FsActionReq) (chunks : list (list Byte.byte))
    (st : State) : State :=
  badgelink_fs_xfer_stop false (upload_run chunks (badgelink_fs_upload req st)).



(** The stream of the transfer is open on an existing file. *)
Definition xfer_stream (st : State) (h : nat) (s : FILE) (f : FileNode) : Prop :=
  xfer_fd st = Some h /\ streams (os st) !! h = Some s /\
  nodes (os st) !! s_path s = Some (File f).

(** A download of the faulty "/bad.bin" that has just been started at
    version [v]. *)
Definition downloading_bad (v : Z) : State :=
  match badgelink_fs_download 16 (req_for "/bad.bin" 0 0) (idle v) with
  | Some st => st
  | None => idle v
  end.

Definition fastio0 : FastIO :=
  {| bl_fast_file := None; bl_fast_buffer := None;
     heap := {| live := ∅; next_buf := 0%nat; room := 1%nat |} |}.

(* ================================================================= *)
(** ** Listing page by page *)

Definition list_req (path : string) (offset : Z) : FsActionReq :=
  {| req_path := path; req_size := 0; req_crc32 := 0; req_list_offset := offset |}.



(** [path] can be opened for writing: it names a regular file, or
    nothing yet in a directory that exists. *)
Definition writable_target (path : string) (os : Libc) : bool :=
  match nodes os !! path with
  | Some (File _) => true
  | Some (Dir _) => false
  | None => parent_exists path os
  end.

(** The file a fresh upload starts from. *)
Definition empty_file : FileNode := {| f_data := []; f_rfault := None |}.

(** A StatusOk packet that carries a download chunk. *)
Definition is_chunk (p : Packet) : bool :=
  match p with
  | {| status_code := StatusOk; resp := RespDownloadChunk _ _ |} => true
  | _ => false
  end.

(** A download from its start request over [n] XferContinue requests to
    a normal finish; [None] when the bound on the version 1 scan was
    too small. *)
Definition download_transfer (cfg : Config) (fuel : nat) (req : FsActionReq)
    (n : nat) (st : State) : option State :=
  match badgelink_fs_download fuel req st with
  | Some st1 => Some (badgelink_fs_xfer_stop false (download_run cfg n st1))
  | None => None
  end.

Definition int_err_packet : Packet :=
  {| status_code := StatusInternalError; resp := RespNone |}.

(* ================================================================= *)
(** * Properties *)

(** ** Integers and the CRC *)

Lemma wrap32_small x : 0 <= x < 2 ^ 32 -> wrap32 x = x.
Proof. intros H. unfold wrap32. now apply Z.mod_small. Qed.

Lemma wrap32_add_l x y : wrap32 (wrap32 x + y) = wrap32 (x + y).
Proof. unfold wrap32. now rewrite Zplus_mod_idemp_l. Qed.

Lemma lxor_twice x m : Z.lxor (Z.lxor x m) m = x.
Proof. now rewrite Z.lxor_assoc, Z.lxor_nilpotent, Z.lxor_0_r. Qed.

Lemma esp_crc32_le_nil c : esp_crc32_le c [] = c.
Proof. unfold esp_crc32_le. simpl. apply lxor_twice. Qed.

(** Continuing a CRC over [b] from the result over [a] is the CRC over
    [a ++ b]. *)
Lemma esp_crc32_le_app c a b :
  esp_crc32_le (esp_crc32_le c a) b = esp_crc32_le c (a ++ b).
Proof.
  unfold esp_crc32_le. rewrite lxor_twice, fold_left_app. reflexivity.
Qed.

Example crc32_check_value : crc32 (bytes_of "123456789") = 0xCBF43926.
Proof. vm_compute. reflexivity. Qed.

(** ** Directory listing *)

(** The test that should leave out the dot entries lets every name
    through: no name equals both "." and "..". *)
Lemma list_counts_true n : list_counts n = true.
Proof.
  unfold list_counts. destruct (String.eqb n ".") eqn:E; [|reflexivity].
  apply String.eqb_eq in E. subst n. reflexivity.
Qed.

Lemma list_loop_spec cfg ents : forall skip resp,
  0 <= skip ->
  0 <= total_size resp < 2 ^ 32 ->
  list_loop cfg ents skip resp =
    let new := take (LIST_MAX cfg - list_count resp) (drop (Z.to_nat skip) ents) in
    {| list_ := list_ resp ++ map (to_entry cfg) new;
       list_count := list_count resp + length new;
       total_size := wrap32 (total_size resp + Z.of_nat (length ents)) |}.
Proof.
  induction ents as [|ent rest IH]; intros skip resp Hskip Htot.
  - cbn [list_loop]. rewrite drop_nil, take_nil. cbn.
    rewrite app_nil_r, Nat.add_0_r, Z.add_0_r, wrap32_small by assumption.
    now destruct resp.
  - cbn [list_loop]. rewrite list_counts_true.
    assert (Hr : 0 <= wrap32 (total_size resp + 1) < 2 ^ 32)
      by (apply Z.mod_pos_bound; lia).
    assert (Hw : forall n : nat,
               wrap32 (wrap32 (total_size resp + 1) + Z.of_nat n)
               = wrap32 (total_size resp + Z.of_nat (S n))).
    { intros n. rewrite wrap32_add_l. f_equal. lia. }
    destruct (skip =? 0) eqn:E; cbn [negb].
    + apply Z.eqb_eq in E. subst skip. cbn [list_count list_ total_size].
      change (Z.to_nat 0) with 0%nat. rewrite drop_0.
      destruct (list_count resp <? LIST_MAX cfg)%nat eqn:Hc.
      * apply Nat.ltb_lt in Hc.
        rewrite IH by (cbn; lia || assumption). cbn -[wrap32 Z.of_nat].
        change (Z.to_nat 0) with 0%nat. rewrite drop_0.
        replace (LIST_MAX cfg - list_count resp)%nat
          with (S (LIST_MAX cfg - S (list_count resp))) by lia.
        cbn -[wrap32 Z.of_nat]. rewrite Hw, <- app_assoc. cbn [app].
        f_equal. lia.
      * apply Nat.ltb_ge in Hc.
        rewrite IH by (cbn; lia || assumption). cbn -[wrap32 Z.of_nat].
        replace (LIST_MAX cfg - list_count resp)%nat with 0%nat by lia.
        rewrite !take_0, Hw. reflexivity.
    + apply Z.eqb_neq in E.
      rewrite IH by (cbn; lia || assumption). cbn -[wrap32 Z.of_nat].
      replace (Z.to_nat skip) with (S (Z.to_nat (skip - 1))) by lia.
      cbn -[wrap32 Z.of_nat]. rewrite Hw. reflexivity.
Qed.

(** What the handler answers for a directory: every entry counts, the
    dot entries included. *)
Lemma badgelink_fs_list_all_entries cfg req st ents :
  nodes (os st) !! req_path req = Some (Dir ents) ->
  let shown := take (LIST_MAX cfg)
                 (drop (Z.to_nat (wrap32 (req_list_offset req))) ents) in
  emitted st (badgelink_fs_list cfg req st) =
    [ {| status_code := StatusOk;
         resp := RespFsList {| list_ := map (to_entry cfg) shown;
                               list_count := length shown;
                               total_size := wrap32 (Z.of_nat (length ents)) |} |} ].
Proof.
  intros Hdir shown. unfold badgelink_fs_list, opendir. rewrite Hdir.
  rewrite list_loop_spec.
  - unfold emitted. cbn -[wrap32 Z.of_nat]. rewrite drop_app_length.
    rewrite Nat.sub_0_r. reflexivity.
  - apply Z.mod_pos_bound. lia.
  - cbn. lia.
Qed.

(** C1 (the code at a failing input): listing the directory "/d", whose
    enumeration is ".", "..", "a.txt", from offset 0.  The one matching
    entry is "a.txt", yet the response reports total_size = 3 and
    list_count = 3 and returns the names ".", "..", "a.txt": the dot
    entries are neither skipped nor left out of the count. *)
Theorem badgelink_fs_list_keeps_dot_entries :
  emitted (idle 1) (badgelink_fs_list cfg0 (req_for "/d" 0 0) (idle 1)) =
    [ {| status_code := StatusOk;
         resp := RespFsList
                   {| list_ := [ {| name := "."; is_dir := true |};
                                 {| name := ".."; is_dir := true |};
                                 {| name := "a.txt"; is_dir := false |} ];
                      list_count := 3;
                      total_size := 3 |} |} ].
Proof. vm_compute. reflexivity. Qed.

(** Closes a conjunction whose parts are all among the hypotheses. *)
Ltac from_hyps := repeat (split; [assumption|]); assumption.

(** ** Packets sent by a handler *)

Lemma emitted_app st st' ps : sent st' = sent st ++ ps -> emitted st st' = ps.
Proof.
  intros H. unfold emitted. rewrite H. rewrite drop_app_length. reflexivity.
Qed.

Lemma emitted_send st p st' :
  sent st' = sent st -> emitted st (badgelink_send_packet p st') = [p].
Proof. intros H. apply emitted_app. cbn. now rewrite H. Qed.

Lemma emitted_status st c st' :
  sent st' = sent st -> emitted st (badgelink_send_status c st') = [{| status_code := c; resp := RespNone |}].
Proof. apply emitted_send. Qed.

Lemma emitted_none st st' : sent st' = sent st -> emitted st st' = [].
Proof. intros H. apply emitted_app. now rewrite app_nil_r. Qed.

(** ** Closing the transfer's stream *)

Lemma xfer_close_eq st :
  xfer_close st = set_os (fclose (xfer_fd st) (os st)) st.
Proof.
  unfold xfer_close, bl_sd_fclose.
  destruct (xfer_is_sd st), (xfer_fd st); reflexivity.
Qed.

Lemma xfer_close_streams st h :
  xfer_fd st = Some h ->
  streams (os (xfer_close st)) = delete h (streams (os st)).
Proof. intros H. rewrite xfer_close_eq, H. reflexivity. Qed.

Lemma xfer_close_closed st h :
  xfer_fd st = Some h -> streams (os (xfer_close st)) !! h = None.
Proof. intros H. rewrite (xfer_close_streams _ _ H). apply lookup_delete_eq. Qed.

Lemma xfer_close_nodes st : nodes (os (xfer_close st)) = nodes (os st).
Proof. rewrite xfer_close_eq. destruct (xfer_fd st); reflexivity. Qed.

Lemma unlink_file path os0 f :
  nodes os0 !! path = Some (File f) ->
  nodes (snd (unlink path os0)) = delete path (nodes os0).
Proof. intros H. unfold unlink. rewrite H. reflexivity. Qed.

Lemma unlink_streams path os0 : streams (snd (unlink path os0)) = streams os0.
Proof. unfold unlink. destruct (nodes os0 !! path) as [[]|]; reflexivity. Qed.

(** ** Start requests during a transfer *)

(** C5: while a transfer is active ([badgelink_xfer_type] is not
    BADGELINK_XFER_NONE), an Upload start and a Download start both
    answer StatusIllState, and the state after the request is the state
    before it with that one packet added: path, position, size, expected
    and running CRC, stream pointer and the C library are untouched. *)
Theorem start_while_active fuel req st :
  badgelink_xfer_type st <> BADGELINK_XFER_NONE ->
  let st' := {| badgelink_xfer_type := badgelink_xfer_type st;
                badgelink_xfer_is_upload := badgelink_xfer_is_upload st;
                badgelink_xfer_size := badgelink_xfer_size st;
                badgelink_xfer_pos := badgelink_xfer_pos st;
                protocol_version := protocol_version st;
                xfer_path := xfer_path st;
                xfer_fd := xfer_fd st;
                xfer_is_sd := xfer_is_sd st;
                xfer_crc32 := xfer_crc32 st;
                running_crc := running_crc st;
                os := os st;
                sent := sent st ++ [{| status_code := StatusIllState; resp := RespNone |}] |} in
  badgelink_fs_upload req st = st' /\
  badgelink_fs_download fuel req st = Some st'.
Proof.
  intros Hact st'. subst st'.
  unfold badgelink_fs_upload, badgelink_fs_download, badgelink_status_ill_state,
    badgelink_send_status, badgelink_send_packet.
  destruct (badgelink_xfer_type st); [congruence| | ]; split; reflexivity.
Qed.

Lemma start_while_active_witness :
  let st := uploading 0 in
  let st' := {| badgelink_xfer_type := badgelink_xfer_type st;
                badgelink_xfer_is_upload := badgelink_xfer_is_upload st;
                badgelink_xfer_size := badgelink_xfer_size st;
                badgelink_xfer_pos := badgelink_xfer_pos st;
                protocol_version := protocol_version st;
                xfer_path := xfer_path st;
                xfer_fd := xfer_fd st;
                xfer_is_sd := xfer_is_sd st;
                xfer_crc32 := xfer_crc32 st;
                running_crc := running_crc st;
                os := os st;
                sent := sent st ++ [{| status_code := StatusIllState; resp := RespNone |}] |} in
  badgelink_xfer_type st <> BADGELINK_XFER_NONE /\
  badgelink_fs_upload (req_for "/a.bin" 1 2) st = st' /\
  badgelink_fs_download 0 (req_for "/a.bin" 1 2) st = Some st'.
Proof.
  intros st st'.
  assert (H : badgelink_xfer_type st <> BADGELINK_XFER_NONE)
    by (vm_compute; discriminate).
  exact (conj H (start_while_active 0 (req_for "/a.bin" 1 2) st H)).
Defined.

(** ** Finishing and aborting a transfer *)

(** C4: a normal finish of an upload closes the stream; when the
    running CRC differs from the announced one the target file is
    removed and the answer is StatusInternalError, and when they agree
    the file store is unchanged and the answer is StatusOk. *)
Theorem upload_finish st h f :
  badgelink_xfer_is_upload st = true ->
  xfer_fd st = Some h ->
  nodes (os st) !! xfer_path st = Some (File f) ->
  streams (os (badgelink_fs_xfer_stop false st)) !! h = None /\
  (running_crc st <> xfer_crc32 st ->
     nodes (os (badgelink_fs_xfer_stop false st)) = delete (xfer_path st) (nodes (os st)) /\
     emitted st (badgelink_fs_xfer_stop false st)
       = [{| status_code := StatusInternalError; resp := RespNone |}]) /\
  (running_crc st = xfer_crc32 st ->
     nodes (os (badgelink_fs_xfer_stop false st)) = nodes (os st) /\
     emitted st (badgelink_fs_xfer_stop false st)
       = [{| status_code := StatusOk; resp := RespNone |}]).
Proof.
  intros Hup Hfd Hfile. unfold badgelink_fs_xfer_stop. cbn [negb]. rewrite Hup.
  pose proof (xfer_close_closed st h Hfd) as Hclosed.
  pose proof (xfer_close_nodes st) as Hnodes.
  assert (Hrest : running_crc (xfer_close st) = running_crc st
                  /\ xfer_crc32 (xfer_close st) = xfer_crc32 st
                  /\ xfer_path (xfer_close st) = xfer_path st
                  /\ sent (xfer_close st) = sent st).
  { rewrite xfer_close_eq. repeat split. }
  destruct Hrest as (Hrc & Hxc & Hp & Hs). rewrite Hrc, Hxc, Hp.
  destruct (running_crc st =? xfer_crc32 st) eqn:E; cbn [negb].
  - apply Z.eqb_eq in E. split; [exact Hclosed|]. split; [congruence|].
    intros _. split; [exact Hnodes|]. now apply emitted_status.
  - apply Z.eqb_neq in E. split.
    + cbn. rewrite unlink_streams. exact Hclosed.
    + split; [|congruence]. intros _. split.
      * cbn. rewrite (unlink_file _ _ f) by (rewrite Hnodes; exact Hfile).
        now rewrite Hnodes.
      * now apply emitted_status.
Qed.

Lemma upload_finish_witness :
  (let st := uploading 5 in
   badgelink_xfer_is_upload st = true /\ xfer_fd st = Some 3%nat /\
   nodes (os st) !! xfer_path st = Some (File {| f_data := []; f_rfault := None |}) /\
   nodes (os (badgelink_fs_xfer_stop false st)) !! "/up.bin" = None /\
   emitted st (badgelink_fs_xfer_stop false st)
     = [{| status_code := StatusInternalError; resp := RespNone |}]) /\
  (let st := upload_run [bytes_of "1234"; bytes_of "56789"] (uploading 0xCBF43926) in
   badgelink_xfer_is_upload st = true /\ xfer_fd st = Some 3%nat /\
   nodes (os st) !! xfer_path st
     = Some (File {| f_data := bytes_of "123456789"; f_rfault := None |}) /\
   streams (os (badgelink_fs_xfer_stop false st)) !! 3%nat = None /\
   nodes (os (badgelink_fs_xfer_stop false st)) = nodes (os st) /\
   emitted st (badgelink_fs_xfer_stop false st)
     = [{| status_code := StatusOk; resp := RespNone |}]).
Proof.
  split; intros st.
  - assert (H1 : badgelink_xfer_is_upload st = true) by reflexivity.
    assert (H2 : xfer_fd st = Some 3%nat) by reflexivity.
    assert (H3 : nodes (os st) !! xfer_path st
                 = Some (File {| f_data := []; f_rfault := None |}))
      by (vm_compute; reflexivity).
    destruct (upload_finish st 3%nat _ H1 H2 H3) as (_ & Hbad & _).
    destruct Hbad as [Hn He]; [vm_compute; discriminate|].
    assert (Hgone : nodes (os (badgelink_fs_xfer_stop false st)) !! "/up.bin" = None)
      by (rewrite Hn; apply lookup_delete_eq).
    from_hyps.
  - assert (H1 : badgelink_xfer_is_upload st = true) by reflexivity.
    assert (H2 : xfer_fd st = Some 3%nat) by reflexivity.
    assert (H3 : nodes (os st) !! xfer_path st
                 = Some (File {| f_data := bytes_of "123456789"; f_rfault := None |}))
      by (vm_compute; reflexivity).
    destruct (upload_finish st 3%nat _ H1 H2 H3) as (Hc & _ & Hok).
    destruct Hok as [Hn He]; [vm_compute; reflexivity|].
    from_hyps.
Defined.

(** C8: an abnormal stop closes the stream and sends nothing; the
    target file is removed when the transfer was an upload, and the file
    store is left alone when it was a download. *)
Theorem xfer_abort st h :
  xfer_fd st = Some h ->
  streams (os (badgelink_fs_xfer_stop true st)) !! h = None /\
  sent (badgelink_fs_xfer_stop true st) = sent st /\
  (badgelink_xfer_is_upload st = true ->
     forall f, nodes (os st) !! xfer_path st = Some (File f) ->
     nodes (os (badgelink_fs_xfer_stop true st)) = delete (xfer_path st) (nodes (os st))) /\
  (badgelink_xfer_is_upload st = false ->
     nodes (os (badgelink_fs_xfer_stop true st)) = nodes (os st)).
Proof.
  intros Hfd. unfold badgelink_fs_xfer_stop.
  pose proof (xfer_close_closed st h Hfd) as Hclosed.
  pose proof (xfer_close_nodes st) as Hnodes.
  assert (Hrest : badgelink_xfer_is_upload (xfer_close st) = badgelink_xfer_is_upload st
                  /\ xfer_path (xfer_close st) = xfer_path st
                  /\ sent (xfer_close st) = sent st).
  { rewrite xfer_close_eq. repeat split. }
  destruct Hrest as (Hu & Hp & Hs). rewrite Hu, Hp.
  destruct (badgelink_xfer_is_upload st).
  - split; [cbn; rewrite unlink_streams; exact Hclosed|].
    split; [exact Hs|]. split; [|discriminate].
    intros _ f Hf. cbn. rewrite (unlink_file _ _ f) by (rewrite Hnodes; exact Hf).
    now rewrite Hnodes.
  - split; [exact Hclosed|]. split; [exact Hs|]. split; [discriminate|].
    intros _. exact Hnodes.
Qed.

Lemma xfer_abort_witness :
  (let st := upload_run [bytes_of "1234"] (uploading 0) in
   xfer_fd st = Some 3%nat /\
   nodes (os st) !! "/up.bin" = Some (File {| f_data := bytes_of "1234"; f_rfault := None |}) /\
   streams (os (badgelink_fs_xfer_stop true st)) !! 3%nat = None /\
   sent (badgelink_fs_xfer_stop true st) = sent st /\
   nodes (os (badgelink_fs_xfer_stop true st)) !! "/up.bin" = None) /\
  (let st := downloading 2 in
   xfer_fd st = Some 3%nat /\
   streams (os (badgelink_fs_xfer_stop true st)) !! 3%nat = None /\
   sent (badgelink_fs_xfer_stop true st) = sent st /\
   nodes (os (badgelink_fs_xfer_stop true st)) = nodes (os st)).
Proof.
  split; intros st.
  - assert (H : xfer_fd st = Some 3%nat) by reflexivity.
    assert (Hf : nodes (os st) !! xfer_path st
                 = Some (File {| f_data := bytes_of "1234"; f_rfault := None |}))
      by (vm_compute; reflexivity).
    destruct (xfer_abort st 3%nat H) as (Hc & Hs & Hup & _).
    specialize (Hup eq_refl _ Hf).
    assert (Hgone : nodes (os (badgelink_fs_xfer_stop true st)) !! "/up.bin" = None)
      by (rewrite Hup; apply lookup_delete_eq).
    from_hyps.
  - assert (H : xfer_fd st = Some 3%nat) by reflexivity.
    destruct (xfer_abort st 3%nat H) as (Hc & Hs & _ & Hdown).
    specialize (Hdown eq_refl). from_hyps.
Defined.

(** ** Download chunks *)

Lemma chunk_bytes_app ps qs : chunk_bytes (ps ++ qs) = chunk_bytes ps ++ chunk_bytes qs.
Proof. unfold chunk_bytes. now rewrite map_app, concat_app. Qed.

(** One XferContinue: one packet is sent; at version 2 and later the
    running CRC continues over the bytes of that packet (none for a
    status packet); the transfer's other variables stay. *)
Lemma xfer_download_step cfg st :
  exists p,
    sent (badgelink_fs_xfer_download cfg st) = sent st ++ [p] /\
    running_crc (badgelink_fs_xfer_download cfg st)
      = (if 2 <=? protocol_version st
         then esp_crc32_le (running_crc st) (chunk_bytes [p])
         else running_crc st) /\
    protocol_version (badgelink_fs_xfer_download cfg st) = protocol_version st /\
    badgelink_xfer_is_upload (badgelink_fs_xfer_download cfg st) = badgelink_xfer_is_upload st /\
    badgelink_xfer_size (badgelink_fs_xfer_download cfg st) = badgelink_xfer_size st /\
    xfer_fd (badgelink_fs_xfer_download cfg st) = xfer_fd st.
Proof.
  unfold badgelink_fs_xfer_download, badgelink_get_protocol_version.
  destruct (fread (CHUNK_SIZE cfg) (xfer_fd st) (os st)) as [bytes os1].
  change (protocol_version (set_os os1 st)) with (protocol_version st).
  destruct (ferror (xfer_fd (set_os os1 st)) (os (set_os os1 st)));
    destruct (2 <=? protocol_version st);
    eexists; (split; [reflexivity|]); cbn -[esp_crc32_le];
    rewrite ?esp_crc32_le_nil, ?app_nil_r; repeat split.
Qed.

Lemma download_run_spec cfg n st :
  exists ps,
    sent (download_run cfg n st) = sent st ++ ps /\
    running_crc (download_run cfg n st)
      = (if 2 <=? protocol_version st
         then esp_crc32_le (running_crc st) (chunk_bytes ps)
         else running_crc st) /\
    protocol_version (download_run cfg n st) = protocol_version st /\
    badgelink_xfer_is_upload (download_run cfg n st) = badgelink_xfer_is_upload st /\
    badgelink_xfer_size (download_run cfg n st) = badgelink_xfer_size st /\
    xfer_fd (download_run cfg n st) = xfer_fd st.
Proof.
  induction n as [|n IH].
  - exists []. cbn. rewrite app_nil_r, esp_crc32_le_nil.
    destruct (2 <=? protocol_version st); repeat split.
  - destruct IH as (ps & Hs & Hcrc & Hv & Hu & Hsz & Hfd).
    change (download_run cfg (S n) st)
      with (badgelink_fs_xfer_download cfg (download_run cfg n st)).
    destruct (xfer_download_step cfg (download_run cfg n st))
      as (p & Hs' & Hcrc' & Hv' & Hu' & Hsz' & Hfd').
    exists (ps ++ [p]).
    rewrite Hs', Hcrc', Hv', Hu', Hsz', Hfd', Hs, Hcrc, Hv, Hu, Hsz, Hfd.
    rewrite chunk_bytes_app, <- esp_crc32_le_app, app_assoc.
    destruct (2 <=? protocol_version st); repeat split.
Qed.

(** C3: a normal finish of a download, after any number of
    XferContinue requests, closes the stream.  Below version 2 the
    answer is a plain StatusOk.  From version 2 on it is an fs_resp
    carrying the transfer's size and the running CRC, which is the CRC
    continued from the transfer's starting value over the bytes of the
    chunks that were sent. *)
Theorem download_finish cfg n st h :
  badgelink_xfer_is_upload st = false ->
  xfer_fd st = Some h ->
  streams (os (badgelink_fs_xfer_stop false (download_run cfg n st))) !! h = None /\
  (protocol_version st < 2 ->
     emitted (download_run cfg n st)
       (badgelink_fs_xfer_stop false (download_run cfg n st))
     = [{| status_code := StatusOk; resp := RespNone |}]) /\
  (2 <= protocol_version st ->
     emitted (download_run cfg n st)
       (badgelink_fs_xfer_stop false (download_run cfg n st))
     = [{| status_code := StatusOk;
           resp := RespFsCrc32
                     (esp_crc32_le (running_crc st)
                        (chunk_bytes (emitted st (download_run cfg n st))))
                     (badgelink_xfer_size st) |}]).
Proof.
  intros Hup Hfd.
  destruct (download_run_spec cfg n st) as (ps & Hs & Hcrc & Hv & Hu & Hsz & Hfd').
  rewrite (emitted_app _ _ _ Hs).
  set (st1 := download_run cfg n st) in *.
  unfold badgelink_fs_xfer_stop, badgelink_get_protocol_version.
  rewrite Hu, Hup.
  assert (Hfd1 : xfer_fd st1 = Some h) by congruence.
  pose proof (xfer_close_closed st1 h Hfd1) as Hclosed.
  assert (Hrest : protocol_version (xfer_close st1) = protocol_version st
                  /\ running_crc (xfer_close st1) = running_crc st1
                  /\ badgelink_xfer_size (xfer_close st1) = badgelink_xfer_size st
                  /\ sent (xfer_close st1) = sent st1).
  { rewrite xfer_close_eq. cbn. auto. }
  destruct Hrest as (Hv1 & Hrc1 & Hsz1 & Hs1). rewrite Hv1, Hrc1, Hsz1.
  destruct (2 <=? protocol_version st) eqn:E.
  - apply Z.leb_le in E. split; [exact Hclosed|]. split; [lia|].
    intros _. rewrite Hcrc. now apply emitted_send.
  - apply Z.leb_gt in E. split; [exact Hclosed|]. split; [|lia].
    intros _. now apply emitted_status.
Qed.

Lemma download_finish_witness :
  (let st := downloading 2 in
   badgelink_xfer_is_upload st = false /\ xfer_fd st = Some 3%nat /\
   2 <= protocol_version st /\
   streams (os (badgelink_fs_xfer_stop false (download_run cfg0 3 st))) !! 3%nat = None /\
   emitted (download_run cfg0 3 st)
     (badgelink_fs_xfer_stop false (download_run cfg0 3 st))
   = [{| status_code := StatusOk; resp := RespFsCrc32 0xCBF43926 9 |}]) /\
  (let st := downloading 1 in
   badgelink_xfer_is_upload st = false /\ xfer_fd st = Some 3%nat /\
   protocol_version st < 2 /\
   emitted (download_run cfg0 3 st)
     (badgelink_fs_xfer_stop false (download_run cfg0 3 st))
   = [{| status_code := StatusOk; resp := RespNone |}]).
Proof.
  split; intros st.
  - assert (H1 : badgelink_xfer_is_upload st = false) by reflexivity.
    assert (H2 : xfer_fd st = Some 3%nat) by reflexivity.
    assert (H3 : 2 <= protocol_version st)
      by (change (protocol_version st) with 2; lia).
    destruct (download_finish cfg0 3 st 3%nat H1 H2) as (Hc & _ & Hv2).
    specialize (Hv2 H3).
    assert (Hval : esp_crc32_le (running_crc st)
                     (chunk_bytes (emitted st (download_run cfg0 3 st))) = 0xCBF43926)
      by (vm_compute; reflexivity).
    rewrite Hval in Hv2. from_hyps.
  - assert (H1 : badgelink_xfer_is_upload st = false) by reflexivity.
    assert (H2 : xfer_fd st = Some 3%nat) by reflexivity.
    assert (H3 : protocol_version st < 2)
      by (change (protocol_version st) with 1; lia).
    destruct (download_finish cfg0 3 st 3%nat H1 H2) as (Hc & Hv1 & _).
    specialize (Hv1 H3). from_hyps.
Defined.

(** ** Upload chunks *)

Lemma fwrite_le data fd os0 : (fst (fwrite data fd os0) <= length data)%nat.
Proof.
  unfold fwrite. destruct fd as [h|]; [|cbn; lia].
  destruct (streams os0 !! h) as [s|]; [|cbn; lia].
  destruct (s_write s); [|cbn; lia].
  destruct (nodes os0 !! s_path s) as [[f|]|]; cbn; try lia.
  destruct (quota os0) as [[k e]|]; lia.
Qed.

(** A write through a writable stream on an existing file, on a medium
    that accepts [k] more bytes: the count is [min k n], the bytes that
    fit are in the file, and a short count leaves the medium's error in
    [errno]. *)
Lemma fwrite_quota data h s f k e os0 :
  streams os0 !! h = Some s ->
  s_write s = true ->
  nodes os0 !! s_path s = Some (File f) ->
  quota os0 = Some (k, e) ->
  fst (fwrite data (Some h) os0) = Nat.min k (length data) /\
  nodes (snd (fwrite data (Some h) os0)) !! s_path s
    = Some (File {| f_data := store_at (s_pos s) (take k data) (f_data f);
                    f_rfault := f_rfault f |}) /\
  ((k < length data)%nat -> errno (snd (fwrite data (Some h) os0)) = e).
Proof.
  intros Hs Hw Hf Hq. unfold fwrite. rewrite Hs, Hw, Hf, Hq.
  cbn -[Nat.ltb Nat.min]. split; [reflexivity|]. split.
  - rewrite lookup_insert_eq. do 3 f_equal.
    destruct (Nat.le_ge_cases k (length data)) as [Hle|Hge].
    + now rewrite Nat.min_l.
    + rewrite Nat.min_r by assumption. now rewrite !take_ge by lia.
  - intros Hlt. rewrite Nat.min_l by lia.
    apply Nat.ltb_lt in Hlt. now rewrite Hlt.
Qed.

(** One UploadChunk: one status packet is sent; StatusOk goes with the
    running CRC continued over the chunk, any other status with the
    running CRC as it was. *)
Lemma xfer_upload_step chunk st :
  exists c,
    sent (badgelink_fs_xfer_upload chunk st)
      = sent st ++ [{| status_code := c; resp := RespNone |}] /\
    ((c = StatusOk /\
      running_crc (badgelink_fs_xfer_upload chunk st)
        = esp_crc32_le (running_crc st) chunk) \/
     (c <> StatusOk /\
      running_crc (badgelink_fs_xfer_upload chunk st) = running_crc st)).
Proof.
  unfold badgelink_fs_xfer_upload.
  destruct (fwrite chunk (xfer_fd st) (os st)) as [len os1].
  destruct (len <? length chunk)%nat; [destruct (errno os1 =? ENOSPC)|];
    eexists; (split; [reflexivity|]);
    solve [ left; split; reflexivity | right; split; [discriminate|reflexivity] ].
Qed.

Lemma last_status_snoc st st' c :
  sent st' = sent st ++ [{| status_code := c; resp := RespNone |}] ->
  last_status st' = Some c.
Proof. intros H. unfold last_status. rewrite H, last_snoc. reflexivity. Qed.

(** The running CRC after a run of upload chunks is the CRC continued
    over the chunks that were answered StatusOk, and over no other
    byte. *)
Lemma upload_run_crc chunks : forall st,
  running_crc (upload_run chunks st)
    = esp_crc32_le (running_crc st) (concat (accepted chunks st)).
Proof.
  induction chunks as [|c rest IH]; intros st.
  - cbn. now rewrite esp_crc32_le_nil.
  - change (upload_run (c :: rest) st)
      with (upload_run rest (badgelink_fs_xfer_upload c st)).
    cbn [accepted]. rewrite IH.
    destruct (xfer_upload_step c st) as (code & Hs & [[-> Hrc]|[Hne Hrc]]).
    + rewrite (last_status_snoc _ _ _ Hs), Hrc. cbn [concat].
      apply esp_crc32_le_app.
    + rewrite (last_status_snoc _ _ _ Hs), Hrc.
      destruct code; try reflexivity. congruence.
Qed.

(** C6: an UploadChunk is answered by the outcome of its [fwrite].  A
    short count with ENOSPC in [errno] gives StatusNoSpace; a short
    count with any other [errno] gives StatusInternalError; a full count
    gives StatusOk and continues the running CRC over the chunk.  In
    every case the transfer's type, direction, target and stream pointer
    stay as they were, so the transfer remains active. *)
Theorem upload_chunk chunk st :
  (badgelink_xfer_type (badgelink_fs_xfer_upload chunk st) = badgelink_xfer_type st /\
   badgelink_xfer_is_upload (badgelink_fs_xfer_upload chunk st) = badgelink_xfer_is_upload st /\
   xfer_path (badgelink_fs_xfer_upload chunk st) = xfer_path st /\
   xfer_fd (badgelink_fs_xfer_upload chunk st) = xfer_fd st) /\
  ((fst (fwrite chunk (xfer_fd st) (os st)) < length chunk)%nat ->
   errno (snd (fwrite chunk (xfer_fd st) (os st))) = ENOSPC ->
   emitted st (badgelink_fs_xfer_upload chunk st)
     = [{| status_code := StatusNoSpace; resp := RespNone |}] /\
   running_crc (badgelink_fs_xfer_upload chunk st) = running_crc st) /\
  ((fst (fwrite chunk (xfer_fd st) (os st)) < length chunk)%nat ->
   errno (snd (fwrite chunk (xfer_fd st) (os st))) <> ENOSPC ->
   emitted st (badgelink_fs_xfer_upload chunk st)
     = [{| status_code := StatusInternalError; resp := RespNone |}] /\
   running_crc (badgelink_fs_xfer_upload chunk st) = running_crc st) /\
  (fst (fwrite chunk (xfer_fd st) (os st)) = length chunk ->
   emitted st (badgelink_fs_xfer_upload chunk st)
     = [{| status_code := StatusOk; resp := RespNone |}] /\
   running_crc (badgelink_fs_xfer_upload chunk st)
     = esp_crc32_le (running_crc st) chunk).
Proof.
  unfold badgelink_fs_xfer_upload.
  destruct (fwrite chunk (xfer_fd st) (os st)) as [len os1]. cbn [fst snd].
  destruct (len <? length chunk)%nat eqn:Hlen.
  - apply Nat.ltb_lt in Hlen.
    destruct (errno os1 =? ENOSPC) eqn:He.
    + apply Z.eqb_eq in He. split; [repeat split|].
      split; [intros _ _; split; [now apply emitted_status|reflexivity]|].
      split; [congruence|lia].
    + apply Z.eqb_neq in He. split; [repeat split|].
      split; [congruence|].
      split; [intros _ _; split; [now apply emitted_status|reflexivity]|lia].
  - apply Nat.ltb_ge in Hlen. split; [repeat split|].
    split; [lia|]. split; [lia|].
    intros _. split; [now apply emitted_status|reflexivity].
Qed.

Lemma upload_chunk_witness :
  (let st := uploading_tight 2 ENOSPC in
   (fst (fwrite (bytes_of "1234") (xfer_fd st) (os st)) < 4)%nat /\
   errno (snd (fwrite (bytes_of "1234") (xfer_fd st) (os st))) = ENOSPC /\
   emitted st (badgelink_fs_xfer_upload (bytes_of "1234") st)
     = [{| status_code := StatusNoSpace; resp := RespNone |}] /\
   badgelink_xfer_type (badgelink_fs_xfer_upload (bytes_of "1234") st)
     = BADGELINK_XFER_FS) /\
  (let st := uploading_tight 2 EIO in
   (fst (fwrite (bytes_of "1234") (xfer_fd st) (os st)) < 4)%nat /\
   errno (snd (fwrite (bytes_of "1234") (xfer_fd st) (os st))) <> ENOSPC /\
   emitted st (badgelink_fs_xfer_upload (bytes_of "1234") st)
     = [{| status_code := StatusInternalError; resp := RespNone |}]) /\
  (let st := uploading 0 in
   fst (fwrite (bytes_of "1234") (xfer_fd st) (os st)) = 4%nat /\
   emitted st (badgelink_fs_xfer_upload (bytes_of "1234") st)
     = [{| status_code := StatusOk; resp := RespNone |}] /\
   running_crc (badgelink_fs_xfer_upload (bytes_of "1234") st)
     = crc32 (bytes_of "1234")).
Proof.
  split; [|split]; intros st.
  - assert (H1 : (fst (fwrite (bytes_of "1234") (xfer_fd st) (os st)) < 4)%nat)
      by (vm_compute; lia).
    assert (H2 : errno (snd (fwrite (bytes_of "1234") (xfer_fd st) (os st))) = ENOSPC)
      by (vm_compute; reflexivity).
    destruct (upload_chunk (bytes_of "1234") st) as ((Ht & _) & Hfull & _).
    destruct (Hfull H1 H2) as [He _].
    change (badgelink_xfer_type st) with BADGELINK_XFER_FS in Ht.
    from_hyps.
  - assert (H1 : (fst (fwrite (bytes_of "1234") (xfer_fd st) (os st)) < 4)%nat)
      by (vm_compute; lia).
    assert (H2 : errno (snd (fwrite (bytes_of "1234") (xfer_fd st) (os st))) <> ENOSPC)
      by (vm_compute; discriminate).
    destruct (upload_chunk (bytes_of "1234") st) as (_ & _ & Hfail & _).
    destruct (Hfail H1 H2) as [He _].
    from_hyps.
  - assert (H1 : fst (fwrite (bytes_of "1234") (xfer_fd st) (os st)) = 4%nat)
      by (vm_compute; reflexivity).
    destruct (upload_chunk (bytes_of "1234") st) as (_ & _ & _ & Hok).
    destruct (Hok H1) as [He Hrc].
    change (esp_crc32_le (running_crc st) (bytes_of "1234"))
      with (crc32 (bytes_of "1234")) in Hrc.
    from_hyps.
Defined.

(** C7: when every chunk of a run is written in full (answered
    StatusOk), the running CRC after the run is the CRC continued over
    the concatenation of the chunks, hence the CRC-32 of the
    concatenation when the run starts from a running CRC of 0 as an
    upload start leaves it; two runs over the same bytes, cut into
    chunks differently, end with the same running CRC. *)
Theorem upload_crc_chunk_boundaries st cs1 cs2 :
  all_accepted cs1 st ->
  all_accepted cs2 st ->
  concat cs1 = concat cs2 ->
  running_crc (upload_run cs1 st) = esp_crc32_le (running_crc st) (concat cs1) /\
  (running_crc st = 0 -> running_crc (upload_run cs1 st) = crc32 (concat cs1)) /\
  running_crc (upload_run cs2 st) = running_crc (upload_run cs1 st).
Proof.
  unfold all_accepted. intros H1 H2 Hcat.
  rewrite !upload_run_crc, H1, H2, Hcat.
  split; [reflexivity|]. split; [|reflexivity].
  intros ->. reflexivity.
Qed.

Lemma upload_crc_chunk_boundaries_witness :
  let st := uploading 0 in
  let cs1 := [bytes_of "1234"; bytes_of "56789"] in
  let cs2 := [bytes_of "12"; bytes_of "345"; bytes_of "6"; bytes_of "789"] in
  all_accepted cs1 st /\ all_accepted cs2 st /\ concat cs1 = concat cs2 /\
  running_crc st = 0 /\
  running_crc (upload_run cs1 st) = crc32 (concat cs1) /\
  running_crc (upload_run cs2 st) = running_crc (upload_run cs1 st).
Proof.
  intros st cs1 cs2.
  assert (H1 : all_accepted cs1 st) by (vm_compute; reflexivity).
  assert (H2 : all_accepted cs2 st) by (vm_compute; reflexivity).
  assert (H3 : concat cs1 = concat cs2) by reflexivity.
  assert (H4 : running_crc st = 0) by reflexivity.
  destruct (upload_crc_chunk_boundaries st cs1 cs2 H1 H2 H3) as (_ & Hcrc & Hsame).
  specialize (Hcrc H4). from_hyps.
Defined.

(** C9: after any run of upload chunks the running CRC is the CRC
    continued over the chunks answered StatusOk and nothing else.  In
    particular a chunk of which the medium took only the first [k] bytes
    leaves those [k] bytes in the file, is not answered StatusOk, and
    leaves the running CRC as it was. *)
Theorem upload_crc_skips_failed_chunks :
  (forall chunks st,
     running_crc (upload_run chunks st)
       = esp_crc32_le (running_crc st) (concat (accepted chunks st))) /\
  (forall chunk st h s f k e,
     xfer_fd st = Some h ->
     streams (os st) !! h = Some s ->
     s_write s = true ->
     nodes (os st) !! s_path s = Some (File f) ->
     quota (os st) = Some (k, e) ->
     (k < length chunk)%nat ->
     nodes (os (badgelink_fs_xfer_upload chunk st)) !! s_path s
       = Some (File {| f_data := store_at (s_pos s) (take k chunk) (f_data f);
                       f_rfault := f_rfault f |}) /\
     accepted [chunk] st = [] /\
     running_crc (badgelink_fs_xfer_upload chunk st) = running_crc st).
Proof.
  split; [intros; apply upload_run_crc|].
  intros chunk st h s f k e Hfd Hs Hw Hf Hq Hlt.
  destruct (fwrite_quota chunk h s f k e (os st) Hs Hw Hf Hq) as (Hlen & Hnodes & _).
  assert (Hstep : badgelink_fs_xfer_upload chunk st
                  = (if errno (snd (fwrite chunk (Some h) (os st))) =? ENOSPC
                     then badgelink_status_no_space
                     else badgelink_status_int_err)
                      (set_os (snd (fwrite chunk (Some h) (os st))) st)).
  { unfold badgelink_fs_xfer_upload. rewrite Hfd.
    destruct (fwrite chunk (Some h) (os st)) as [len os1]. cbn [fst snd] in *.
    subst len. rewrite Nat.min_l by lia.
    apply Nat.ltb_lt in Hlt. rewrite Hlt.
    destruct (errno os1 =? ENOSPC); reflexivity. }
  cbn [accepted]. rewrite Hstep.
  destruct (errno (snd (fwrite chunk (Some h) (os st))) =? ENOSPC);
    (split; [exact Hnodes|]); unfold last_status; cbn [sent badgelink_status_no_space
      badgelink_status_int_err badgelink_send_status badgelink_send_packet];
    rewrite last_snoc; split; reflexivity.
Qed.

Lemma upload_crc_skips_failed_chunks_witness :
  let st := uploading_tight 2 ENOSPC in
  let chunk := bytes_of "1234" in
  xfer_fd st = Some 3%nat /\
  quota (os st) = Some (2%nat, ENOSPC) /\
  (2 < length chunk)%nat /\
  nodes (os (badgelink_fs_xfer_upload chunk st)) !! "/up.bin"
    = Some (File {| f_data := bytes_of "12"; f_rfault := None |}) /\
  accepted [chunk] st = [] /\
  running_crc (badgelink_fs_xfer_upload chunk st) = 0.
Proof.
  intros st chunk.
  assert (H1 : xfer_fd st = Some 3%nat) by reflexivity.
  assert (H2 : streams (os st) !! 3%nat
               = Some {| s_path := "/up.bin"; s_write := true; s_pos := 0;
                         s_eof := false; s_err := false |})
    by (vm_compute; reflexivity).
  assert (H3 : nodes (os st) !! "/up.bin"
               = Some (File {| f_data := []; f_rfault := None |}))
    by (vm_compute; reflexivity).
  assert (H4 : quota (os st) = Some (2%nat, ENOSPC)) by reflexivity.
  assert (H5 : (2 < length chunk)%nat) by (cbn; lia).
  destruct (proj2 upload_crc_skips_failed_chunks chunk st 3%nat _ _ 2%nat ENOSPC
              H1 H2 eq_refl H3 H4 H5) as (Hfile & Hacc & Hrc).
  change (running_crc st) with 0 in Hrc.
  from_hyps.
Defined.

(** ** Reading a file through a stream *)

Lemma read_limit_le f : (read_limit f <= length (f_data f))%nat.
Proof. unfold read_limit. destruct (f_rfault f); lia. Qed.

Lemma read_limit_clean f : faulty f = false -> read_limit f = length (f_data f).
Proof.
  unfold faulty, read_limit. destruct (f_rfault f) as [k|]; [|reflexivity].
  intros H. apply Nat.ltb_ge in H. lia.
Qed.

Lemma read_limit_faulty f k :
  f_rfault f = Some k -> (k < length (f_data f))%nat ->
  read_limit f = k /\ faulty f = true.
Proof.
  unfold faulty, read_limit. intros -> H. split; [lia|]. now apply Nat.ltb_lt.
Qed.

(** A read of [n] bytes through a stream on an existing file, at or
    before the file's read limit. *)
Lemma fread_ready n h s f os0 :
  streams os0 !! h = Some s ->
  nodes os0 !! s_path s = Some (File f) ->
  (s_pos s <= read_limit f)%nat ->
  exists os1 s1,
    fread n (Some h) os0
      = (take (Nat.min n (read_limit f - s_pos s)) (drop (s_pos s) (f_data f)), os1) /\
    length (take (Nat.min n (read_limit f - s_pos s)) (drop (s_pos s) (f_data f)))
      = Nat.min n (read_limit f - s_pos s) /\
    nodes os1 = nodes os0 /\
    streams os1 !! h = Some s1 /\
    s_path s1 = s_path s /\
    s_pos s1 = (s_pos s + Nat.min n (read_limit f - s_pos s))%nat /\
    s_err s1 = s_err s || ((Nat.min n (read_limit f - s_pos s) <? n)%nat && faulty f).
Proof.
  intros Hs Hf Hpos. pose proof (read_limit_le f) as Hle.
  assert (Hlen : length (take (Nat.min n (read_limit f - s_pos s))
                           (drop (s_pos s) (f_data f)))
                 = Nat.min n (read_limit f - s_pos s)).
  { rewrite length_take, length_drop. lia. }
  unfold fread. rewrite Hs, Hf. rewrite Hlen.
  destruct ((Nat.min n (read_limit f - s_pos s) <? n)%nat && faulty f);
    eexists; eexists; (split; [reflexivity|]); (split; [reflexivity|]);
    cbn; rewrite lookup_insert_eq; cbn; repeat split.
Qed.

(** The version 1 scan reads from the stream's position up to the
    file's read limit, whatever stops the reading there: the CRC is
    continued over exactly those bytes and the size grows by their
    number. *)
Lemma crc_scan_spec f h : forall fuel c sz os0 s,
  streams os0 !! h = Some s ->
  nodes os0 !! s_path s = Some (File f) ->
  (s_pos s <= read_limit f)%nat ->
  (read_limit f - s_pos s < fuel)%nat ->
  exists os1 s1,
    crc_scan fuel (Some h) c sz os0
      = Some (esp_crc32_le c (take (read_limit f - s_pos s) (drop (s_pos s) (f_data f))),
              wrap32 (sz + Z.of_nat (read_limit f - s_pos s)), os1) /\
    nodes os1 = nodes os0 /\
    streams os1 !! h = Some s1 /\
    s_path s1 = s_path s /\
    s_pos s1 = read_limit f /\
    s_err s1 = s_err s || faulty f.
Proof.
  induction fuel as [|fuel IH]; intros c sz os0 s Hs Hf Hpos Hfuel; [lia|].
  destruct (fread_ready 128 h s f os0 Hs Hf Hpos)
    as (os1 & s1 & Hread & Hlen & Hn1 & Hs1 & Hp1 & Hpos1 & Herr1).
  cbn [crc_scan]. rewrite Hread, Hlen.
  set (m := Nat.min 128 (read_limit f - s_pos s)) in *.
  rewrite (wrap32_small (Z.of_nat m)) by (unfold m; lia).
  destruct (Z.of_nat m =? 0) eqn:E.
  - apply Z.eqb_eq in E.
    assert (Hrem : (read_limit f - s_pos s = 0)%nat) by (unfold m in E; lia).
    assert (Hm : m = 0%nat) by lia.
    exists os1, s1. rewrite Hrem, Hm. cbn [take].
    split; [reflexivity|]. split; [exact Hn1|]. split; [exact Hs1|].
    split; [exact Hp1|]. split; [lia|].
    rewrite Herr1, Hm. reflexivity.
  - apply Z.eqb_neq in E.
    assert (Hm : (0 < m <= read_limit f - s_pos s)%nat) by (unfold m in *; lia).
    destruct (IH (esp_crc32_le c (take m (drop (s_pos s) (f_data f))))
                 (wrap32 (sz + Z.of_nat m)) os1 s1 Hs1)
      as (os2 & s2 & Hscan & Hn2 & Hs2 & Hp2 & Hpos2 & Herr2).
    + rewrite Hp1, Hn1. exact Hf.
    + lia.
    + lia.
    + exists os2, s2. rewrite Hscan. split.
      * rewrite esp_crc32_le_app, wrap32_add_l, Hpos1.
        rewrite <- drop_drop, take_take_drop.
        replace (m + (read_limit f - (s_pos s + m)))%nat
          with (read_limit f - s_pos s)%nat by lia.
        replace (sz + Z.of_nat m + Z.of_nat (read_limit f - (s_pos s + m)))
          with (sz + Z.of_nat (read_limit f - s_pos s)) by lia.
        reflexivity.
      * split; [congruence|]. split; [exact Hs2|]. split; [congruence|].
        split; [exact Hpos2|]. rewrite Herr2, Herr1.
        destruct (s_err s), (faulty f), (m <? 128)%nat; reflexivity.
Qed.

(** ** Download start *)

Lemma open_rb_file req st f :
  nodes (os st) !! req_path req = Some (File f) ->
  (if strncmp_eq (req_path req) "/sd"
   then bl_sd_fopen_rb (req_path req) (os st)
   else fopen_rb (req_path req) (os st))
  = new_stream (req_path req) false (os st).
Proof.
  intros Hf. unfold bl_sd_fopen_rb, fopen_rb. rewrite Hf.
  now destruct (strncmp_eq (req_path req) "/sd").
Qed.

(** A version 1 start on an existing file: the scan runs from offset 0
    to the file's read limit, the stream is rewound, and the response
    reports the CRC-32 and the number of the bytes the scan read. *)
Lemma download_v1_start fuel req st f :
  badgelink_xfer_type st = BADGELINK_XFER_NONE ->
  nodes (os st) !! req_path req = Some (File f) ->
  protocol_version st < 2 ->
  (read_limit f < fuel)%nat ->
  exists st' os2 s2,
    badgelink_fs_download fuel req st = Some st' /\
    crc_scan fuel (Some (next_stream (os st))) 0 0
        (snd (new_stream (req_path req) false (os st)))
      = Some (crc32 (take (read_limit f) (f_data f)),
              wrap32 (Z.of_nat (read_limit f)), os2) /\
    streams os2 !! next_stream (os st) = Some s2 /\
    s_path s2 = req_path req /\
    s_pos s2 = read_limit f /\
    s_err s2 = faulty f /\
    os st' = fseek_set0 (Some (next_stream (os st))) os2 /\
    sent st' = sent st ++
      [{| status_code := StatusOk;
          resp := RespFsCrc32 (crc32 (take (read_limit f) (f_data f)))
                    (wrap32 (Z.of_nat (read_limit f))) |}] /\
    badgelink_xfer_type st' = BADGELINK_XFER_FS /\
    badgelink_xfer_is_upload st' = false /\
    badgelink_xfer_size st' = wrap32 (Z.of_nat (read_limit f)) /\
    badgelink_xfer_pos st' = 0 /\
    xfer_fd st' = Some (next_stream (os st)).
Proof.
  intros Hidle Hf Hv Hfuel.
  set (h := next_stream (os st)).
  set (fresh := {| s_path := req_path req; s_write := false; s_pos := 0%nat;
                   s_eof := false; s_err := false |}).
  destruct (crc_scan_spec f h fuel 0 0 (snd (new_stream (req_path req) false (os st))) fresh)
    as (os2 & s2 & Hscan & Hn2 & Hs2 & Hp2 & Hpos2 & Herr2).
  { cbn. apply lookup_insert_eq. }
  { cbn. exact Hf. }
  { cbn. lia. }
  { cbn. lia. }
  cbn [s_pos fresh] in Hscan. rewrite Nat.sub_0_r, drop_0, Z.add_0_l in Hscan.
  unfold badgelink_fs_download. rewrite Hidle, (open_rb_file req st f Hf).
  unfold badgelink_get_protocol_version. cbn [new_stream set_os set_target xfer_fd os protocol_version].
  apply Z.leb_gt in Hv. rewrite Hv.
  subst h fresh. cbn [new_stream snd] in Hscan |- *. rewrite Hscan.
  eexists; exists os2, s2.
  split; [reflexivity|]. split; [reflexivity|]. split; [exact Hs2|].
  split; [exact Hp2|]. split; [exact Hpos2|]. split; [exact Herr2|].
  cbn. repeat split.
Qed.

Lemma fseek_set0_rewinds h os2 s2 :
  streams os2 !! h = Some s2 ->
  exists s', streams (fseek_set0 (Some h) os2) !! h = Some s' /\
             s_path s' = s_path s2 /\ s_pos s' = 0%nat /\ s_err s' = s_err s2.
Proof.
  intros Hs. unfold fseek_set0. rewrite Hs. eexists. cbn.
  rewrite lookup_insert_eq. repeat split.
Qed.

(** C2: a download start in the idle state on a file that opens and
    fits a 32-bit size.  Below version 2, when the medium delivers every
    byte, the scan reads the file through to its end, the stream is then
    back at offset 0, and the response reports the file's length and the
    CRC-32 of its whole contents.  From version 2 on, when [fstat]
    answers, nothing is read (the library is as the open left it, for
    any bound on the scan, even 0), the response reports the length from
    [fstat] with crc32 = 0, and the running CRC is 0.  Either way the
    transfer is set up as a filesystem download of that size. *)
Theorem download_start fuel req st f :
  badgelink_xfer_type st = BADGELINK_XFER_NONE ->
  nodes (os st) !! req_path req = Some (File f) ->
  Z.of_nat (length (f_data f)) < 2 ^ 32 ->
  (protocol_version st < 2 ->
   faulty f = false ->
   (length (f_data f) < fuel)%nat ->
   exists st' os2 s2 s',
     badgelink_fs_download fuel req st = Some st' /\
     crc_scan fuel (Some (next_stream (os st))) 0 0
         (snd (new_stream (req_path req) false (os st)))
       = Some (crc32 (f_data f), Z.of_nat (length (f_data f)), os2) /\
     streams os2 !! next_stream (os st) = Some s2 /\
     s_pos s2 = length (f_data f) /\
     streams (os st') !! next_stream (os st) = Some s' /\
     s_path s' = req_path req /\
     s_pos s' = 0%nat /\
     emitted st st'
       = [{| status_code := StatusOk;
             resp := RespFsCrc32 (crc32 (f_data f)) (Z.of_nat (length (f_data f))) |}] /\
     badgelink_xfer_type st' = BADGELINK_XFER_FS /\
     badgelink_xfer_is_upload st' = false /\
     badgelink_xfer_size st' = Z.of_nat (length (f_data f)) /\
     xfer_fd st' = Some (next_stream (os st))) /\
  (2 <= protocol_version st ->
   fstat_fault (os st) = None ->
   exists st',
     badgelink_fs_download fuel req st = Some st' /\
     os st' = snd (new_stream (req_path req) false (os st)) /\
     emitted st st'
       = [{| status_code := StatusOk;
             resp := RespFsCrc32 0 (Z.of_nat (length (f_data f))) |}] /\
     running_crc st' = 0 /\
     badgelink_xfer_type st' = BADGELINK_XFER_FS /\
     badgelink_xfer_is_upload st' = false /\
     badgelink_xfer_size st' = Z.of_nat (length (f_data f)) /\
     xfer_fd st' = Some (next_stream (os st))).
Proof.
  intros Hidle Hf Hsize. split.
  - intros Hv Hclean Hfuel.
    pose proof (read_limit_clean f Hclean) as Hlim.
    destruct (download_v1_start fuel req st f Hidle Hf Hv)
      as (st' & os2 & s2 & Hrun & Hscan & Hs2 & Hp2 & Hpos2 & Herr2 & Hos & Hsent
          & Ht & Hu & Hsz & Hpos & Hfd); [lia|].
    rewrite Hlim, firstn_all, wrap32_small in * by lia.
    destruct (fseek_set0_rewinds _ _ _ Hs2) as (s' & Hs' & Hp' & Hpos' & _).
    exists st', os2, s2, s'. rewrite Hos.
    split; [exact Hrun|]. split; [exact Hscan|]. split; [exact Hs2|].
    split; [exact Hpos2|]. split; [exact Hs'|]. split; [congruence|].
    split; [exact Hpos'|]. split; [exact (emitted_app _ _ _ Hsent)|].
    from_hyps.
  - intros Hv Hstat.
    unfold badgelink_fs_download. rewrite Hidle, (open_rb_file req st f Hf).
    unfold badgelink_get_protocol_version, fstat_size.
    cbn [new_stream set_os set_target xfer_fd os protocol_version fstat_fault
         streams nodes].
    apply Z.leb_le in Hv. rewrite Hv, Hstat, lookup_insert_eq. cbn [s_path].
    rewrite Hf. cbn [f_data]. rewrite wrap32_small by lia.
    eexists. split; [reflexivity|]. cbn.
    split; [now rewrite Hstat|]. split; [|repeat split].
    unfold emitted. cbn. now rewrite drop_app_length.
Qed.

Lemma download_start_witness :
  let req := req_for "/a.bin" 0 0 in
  let f := {| f_data := bytes_of "123456789"; f_rfault := None |} in
  (badgelink_xfer_type (idle 1) = BADGELINK_XFER_NONE /\
   nodes (os (idle 1)) !! req_path req = Some (File f) /\
   Z.of_nat (length (f_data f)) < 2 ^ 32 /\
   protocol_version (idle 1) < 2 /\ faulty f = false /\ (length (f_data f) < 16)%nat /\
   exists st',
     badgelink_fs_download 16 req (idle 1) = Some st' /\
     emitted (idle 1) st'
       = [{| status_code := StatusOk; resp := RespFsCrc32 0xCBF43926 9 |}]) /\
  (badgelink_xfer_type (idle 2) = BADGELINK_XFER_NONE /\
   nodes (os (idle 2)) !! req_path req = Some (File f) /\
   2 <= protocol_version (idle 2) /\ fstat_fault (os (idle 2)) = None /\
   exists st',
     badgelink_fs_download 0 req (idle 2) = Some st' /\
     emitted (idle 2) st'
       = [{| status_code := StatusOk; resp := RespFsCrc32 0 9 |}] /\
     running_crc st' = 0).
Proof.
  intros req f.
  assert (Hf : nodes libc0 !! "/a.bin" = Some (File f)) by (vm_compute; reflexivity).
  assert (Hsz : Z.of_nat (length (f_data f)) < 2 ^ 32) by (cbn; lia).
  assert (Hclean : faulty f = false) by reflexivity.
  assert (Hfuel : (length (f_data f) < 16)%nat) by (cbn; lia).
  assert (Hv1 : protocol_version (idle 1) < 2) by (cbn; lia).
  assert (Hv2 : 2 <= protocol_version (idle 2)) by (cbn; lia).
  assert (Hcrc : crc32 (f_data f) = 0xCBF43926) by (vm_compute; reflexivity).
  split.
  - destruct (download_start 16 req (idle 1) f eq_refl Hf Hsz) as [H1 _].
    destruct (H1 Hv1 Hclean Hfuel)
      as (st' & os2 & s2 & s' & Hrun & _ & _ & _ & _ & _ & _ & Hem & _).
    rewrite Hcrc in Hem.
    split; [reflexivity|]. split; [exact Hf|]. split; [exact Hsz|].
    split; [exact Hv1|]. split; [exact Hclean|]. split; [exact Hfuel|].
    exists st'. split; [exact Hrun|exact Hem].
  - destruct (download_start 0 req (idle 2) f eq_refl Hf Hsz) as [_ H2].
    destruct (H2 Hv2 eq_refl) as (st' & Hrun & _ & Hem & Hrc & _).
    split; [reflexivity|]. split; [exact Hf|]. split; [exact Hv2|].
    split; [reflexivity|].
    exists st'. split; [exact Hrun|]. split; [exact Hem|exact Hrc].
Defined.

(** C10: a version 1 start on a file whose medium fails at offset [k],
    inside the file.  The scan ends at the failing read as it would at
    the end of the file: the start succeeds, its one response is
    StatusOk with the size [k] and the CRC-32 of the first [k] bytes,
    the transfer is set up with that size, and the stream's error
    indicator, though raised, has not been looked at. *)
Theorem download_v1_read_error fuel req st f k :
  badgelink_xfer_type st = BADGELINK_XFER_NONE ->
  nodes (os st) !! req_path req = Some (File f) ->
  Z.of_nat (length (f_data f)) < 2 ^ 32 ->
  protocol_version st < 2 ->
  f_rfault f = Some k ->
  (k < length (f_data f))%nat ->
  (k < fuel)%nat ->
  exists st',
    badgelink_fs_download fuel req st = Some st' /\
    emitted st st'
      = [{| status_code := StatusOk;
            resp := RespFsCrc32 (crc32 (take k (f_data f))) (Z.of_nat k) |}] /\
    badgelink_xfer_type st' = BADGELINK_XFER_FS /\
    badgelink_xfer_is_upload st' = false /\
    badgelink_xfer_size st' = Z.of_nat k /\
    ferror (xfer_fd st') (os st') = true.
Proof.
  intros Hidle Hf Hsize Hv Hfault Hk Hfuel.
  destruct (read_limit_faulty f k Hfault Hk) as [Hlim Hbad].
  destruct (download_v1_start fuel req st f Hidle Hf Hv)
    as (st' & os2 & s2 & Hrun & Hscan & Hs2 & Hp2 & Hpos2 & Herr2 & Hos & Hsent
        & Ht & Hu & Hsz & Hpos & Hfd); [lia|].
  rewrite Hlim, wrap32_small in * by lia.
  destruct (fseek_set0_rewinds _ _ _ Hs2) as (s' & Hs' & _ & _ & Herr').
  exists st'. split; [exact Hrun|]. split; [exact (emitted_app _ _ _ Hsent)|].
  split; [exact Ht|]. split; [exact Hu|]. split; [exact Hsz|].
  rewrite Hfd, Hos. unfold ferror. rewrite Hs'. congruence.
Qed.

Lemma download_v1_read_error_witness :
  let req := req_for "/bad.bin" 0 0 in
  let f := {| f_data := bytes_of "123456789"; f_rfault := Some 4%nat |} in
  badgelink_xfer_type (idle 1) = BADGELINK_XFER_NONE /\
  nodes (os (idle 1)) !! req_path req = Some (File f) /\
  Z.of_nat (length (f_data f)) < 2 ^ 32 /\
  protocol_version (idle 1) < 2 /\
  f_rfault f = Some 4%nat /\
  (4 < length (f_data f))%nat /\
  exists st',
    badgelink_fs_download 16 req (idle 1) = Some st' /\
    emitted (idle 1) st'
      = [{| status_code := StatusOk;
            resp := RespFsCrc32 (crc32 (bytes_of "1234")) 4 |}] /\
    ferror (xfer_fd st') (os st') = true.
Proof.
  intros req f.
  assert (Hf : nodes libc0 !! "/bad.bin" = Some (File f)) by (vm_compute; reflexivity).
  assert (Hsz : Z.of_nat (length (f_data f)) < 2 ^ 32) by (cbn; lia).
  assert (Hv1 : protocol_version (idle 1) < 2) by (cbn; lia).
  assert (Hk : (4 < length (f_data f))%nat) by (cbn; lia).
  assert (Hfuel : (4 < 16)%nat) by lia.
  destruct (download_v1_read_error 16 req (idle 1) f 4%nat eq_refl Hf Hsz Hv1 eq_refl Hk Hfuel)
    as (st' & Hrun & Hem & _ & _ & _ & Herr).
  split; [reflexivity|]. split; [exact Hf|]. split; [exact Hsz|].
  split; [exact Hv1|]. split; [reflexivity|]. split; [exact Hk|].
  exists st'. split; [exact Hrun|]. split; [exact Hem|exact Herr].
Defined.

(* ================================================================= *)
(** * Further properties *)

(** ** Directory listing: pages, bounds, failures *)

Lemma strlcpy_length n s : (String.length (strlcpy n s) <= n - 1)%nat.
Proof.
  unfold strlcpy. generalize (n - 1)%nat as m. clear n.
  induction s as [|c s IH]; intros [|m]; cbn; try lia.
  specialize (IH m). lia.
Qed.

Lemma strlcpy_fits n s : (String.length s <= n - 1)%nat -> strlcpy n s = s.
Proof.
  unfold strlcpy. generalize (n - 1)%nat as m. clear n.
  induction s as [|c s IH]; intros [|m] H; cbn in *; try reflexivity; try lia.
  f_equal. apply IH. lia.
Qed.

Lemma list_keeps_nodes cfg req st :
  nodes (os (badgelink_fs_list cfg req st)) = nodes (os st) /\
  streams (os (badgelink_fs_list cfg req st)) = streams (os st).
Proof.
  unfold badgelink_fs_list, opendir.
  destruct (nodes (os st) !! req_path req) as [[f|ents]|]; cbn; auto.
Qed.



(** X1: The answer to a list request for a directory of [N] entries from
    offset [k]: StatusOk with total_size = N, the entries [k, k + LIST_MAX)
    of the enumeration (as many as exist) with their names cut to the
    name buffer and is_dir set for DT_DIR, and list_count the number of
    entries returned.  Every entry of the enumeration counts. *)
Theorem list_page cfg req st ents k :
  nodes (os st) !! req_path req = Some (Dir ents) ->
  req_list_offset req = Z.of_nat k ->
  Z.of_nat k < 2 ^ 32 ->
  Z.of_nat (length ents) < 2 ^ 32 ->
  emitted st (badgelink_fs_list cfg req st) =
    [ {| status_code := StatusOk;
         resp := RespFsList
                   {| list_ := map (to_entry cfg) (take (LIST_MAX cfg) (drop k ents));
                      list_count := Nat.min (LIST_MAX cfg) (length ents - k);
                      total_size := Z.of_nat (length ents) |} |} ].
Proof.
  intros Hdir Hoff Hk Hn.
  rewrite (badgelink_fs_list_all_entries cfg req st ents Hdir). cbn zeta.
  rewrite Hoff, !wrap32_small, Nat2Z.id by lia.
  now rewrite length_take, length_drop.
Qed.

Lemma list_page_witness :
  let req := list_req "/d" 1 in
  nodes (os (idle 1)) !! req_path req
    = Some (Dir [ {| d_name := "."; d_type := DT_DIR |};
                  {| d_name := ".."; d_type := DT_DIR |};
                  {| d_name := "a.txt"; d_type := DT_REG |} ]) /\
  emitted (idle 1) (badgelink_fs_list cfg0 req (idle 1)) =
    [ {| status_code := StatusOk;
         resp := RespFsList
                   {| list_ := [ {| name := ".."; is_dir := true |};
                                 {| name := "a.txt"; is_dir := false |} ];
                      list_count := 2;
                      total_size := 3 |} |} ].
Proof.
  intros req.
  assert (Hd : nodes (os (idle 1)) !! req_path req
               = Some (Dir [ {| d_name := "."; d_type := DT_DIR |};
                             {| d_name := ".."; d_type := DT_DIR |};
                             {| d_name := "a.txt"; d_type := DT_REG |} ]))
    by (vm_compute; reflexivity).
  split; [exact Hd|].
  exact (list_page cfg0 req (idle 1) _ 1%nat Hd eq_refl ltac:(lia) ltac:(cbn; lia)).
Defined.



(** X3: Whatever the request and the state, a list response stays within
    its buffers: list_count is the number of entries returned and is at
    most LIST_MAX, every name has at most NAME_SIZE - 1 characters, and
    total_size is a 32-bit value. *)
Theorem list_response_bounds cfg req st c l :
  emitted st (badgelink_fs_list cfg req st) = [ {| status_code := c; resp := RespFsList l |} ] ->
  list_count l = length (list_ l) /\
  (list_count l <= LIST_MAX cfg)%nat /\
  Forall (fun e => (String.length (name e) <= NAME_SIZE cfg - 1)%nat) (list_ l) /\
  0 <= total_size l < 2 ^ 32.
Proof.
  destruct (nodes (os st) !! req_path req) as [[f|ents]|] eqn:Hn.
  - unfold badgelink_fs_list, opendir. rewrite Hn. cbn [errno set_errno].
    change (ENOTDIR =? ENOENT) with false. cbv iota.
    unfold badgelink_status_int_err. rewrite emitted_status by reflexivity.
    discriminate.
  - rewrite (badgelink_fs_list_all_entries cfg req st ents Hn). cbn zeta.
    intros H. injection H as _ <-. cbn [list_ list_count total_size].
    rewrite length_map. split; [reflexivity|]. split.
    + rewrite length_take. lia.
    + split; [|apply Z.mod_pos_bound; lia].
      apply Forall_map, Forall_forall. intros e _. apply strlcpy_length.
  - unfold badgelink_fs_list, opendir. rewrite Hn. cbn [errno set_errno].
    change (ENOENT =? ENOENT) with true. cbv iota.
    unfold badgelink_status_not_found. rewrite emitted_status by reflexivity.
    discriminate.
Qed.

Lemma list_response_bounds_witness :
  exists c l,
    emitted (idle 1) (badgelink_fs_list cfg0 (list_req "/d" 0) (idle 1))
      = [ {| status_code := c; resp := RespFsList l |} ] /\
    list_count l = length (list_ l) /\
    (list_count l <= LIST_MAX cfg0)%nat /\
    Forall (fun e => (String.length (name e) <= NAME_SIZE cfg0 - 1)%nat) (list_ l) /\
    0 <= total_size l < 2 ^ 32.
Proof.
  eexists. eexists.
  assert (H : emitted (idle 1) (badgelink_fs_list cfg0 (list_req "/d" 0) (idle 1))
              = [ {| status_code := StatusOk;
                     resp := RespFsList
                               {| list_ := [ {| name := "."; is_dir := true |};
                                             {| name := ".."; is_dir := true |};
                                             {| name := "a.txt"; is_dir := false |} ];
                                  list_count := 3; total_size := 3 |} |} ])
    by (vm_compute; reflexivity).
  split; [exact H|].
  exact (list_response_bounds cfg0 (list_req "/d" 0) (idle 1) _ _ H).
Defined.

(** X4: A list request for a path that does not exist is answered
    StatusNotFound, and one for a regular file StatusInternalError (the
    ENOTDIR of [opendir] has no status of its own); either way that is
    the only packet, and the file store and the open streams are as
    before. *)
Theorem list_failures cfg req st :
  (nodes (os st) !! req_path req = None ->
   emitted st (badgelink_fs_list cfg req st)
     = [ {| status_code := StatusNotFound; resp := RespNone |} ]) /\
  (forall f, nodes (os st) !! req_path req = Some (File f) ->
   emitted st (badgelink_fs_list cfg req st)
     = [ {| status_code := StatusInternalError; resp := RespNone |} ]) /\
  nodes (os (badgelink_fs_list cfg req st)) = nodes (os st) /\
  streams (os (badgelink_fs_list cfg req st)) = streams (os st).
Proof.
  split; [|split; [|apply list_keeps_nodes]].
  - intros Hn. unfold badgelink_fs_list, opendir. rewrite Hn. cbn [errno set_errno].
    change (ENOENT =? ENOENT) with true. cbv iota.
    now apply emitted_status.
  - intros f Hn. unfold badgelink_fs_list, opendir. rewrite Hn. cbn [errno set_errno].
    change (ENOTDIR =? ENOENT) with false. cbv iota.
    now apply emitted_status.
Qed.

Lemma list_failures_witness :
  nodes (os (idle 1)) !! "/nowhere" = None /\
  emitted (idle 1) (badgelink_fs_list cfg0 (list_req "/nowhere" 0) (idle 1))
    = [ {| status_code := StatusNotFound; resp := RespNone |} ] /\
  nodes (os (idle 1)) !! "/a.bin"
    = Some (File {| f_data := bytes_of "123456789"; f_rfault := None |}) /\
  emitted (idle 1) (badgelink_fs_list cfg0 (list_req "/a.bin" 0) (idle 1))
    = [ {| status_code := StatusInternalError; resp := RespNone |} ].
Proof.
  assert (H1 : nodes (os (idle 1)) !! "/nowhere" = None) by (vm_compute; reflexivity).
  assert (H2 : nodes (os (idle 1)) !! "/a.bin"
               = Some (File {| f_data := bytes_of "123456789"; f_rfault := None |}))
    by (vm_compute; reflexivity).
  pose proof (proj1 (list_failures cfg0 (list_req "/nowhere" 0) (idle 1)) H1) as E1.
  pose proof (proj1 (proj2 (list_failures cfg0 (list_req "/a.bin" 0) (idle 1))) _ H2) as E2.
  from_hyps.
Defined.

(** ** Upload: start, failure to start, whole transfers *)

Lemma fopen_wb_ok path os0 :
  writable_target path os0 = true ->
  fopen_wb path os0
    = new_stream path true (set_nodes (<[path := File empty_file]> (nodes os0)) os0).
Proof.
  unfold writable_target, fopen_wb.
  destruct (nodes os0 !! path) as [[f|ents]|]; [reflexivity|discriminate|].
  now intros ->.
Qed.


Lemma open_wb_eq req st :
  (if strncmp_eq (req_path req) "/sd"
   then bl_sd_fopen_wb (req_path req) (os st)
   else fopen_wb (req_path req) (os st))
  = fopen_wb (req_path req) (os st).
Proof. now destruct (strncmp_eq (req_path req) "/sd"). Qed.

(** What a successful upload start leaves behind. *)
Lemma upload_started req st :
  badgelink_xfer_type st = BADGELINK_XFER_NONE ->
  writable_target (req_path req) (os st) = true ->
  (String.length (req_path req) <= 255)%nat ->
  emitted st (badgelink_fs_upload req st)
    = [ {| status_code := StatusOk; resp := RespNone |} ] /\
  badgelink_xfer_type (badgelink_fs_upload req st) = BADGELINK_XFER_FS /\
  badgelink_xfer_is_upload (badgelink_fs_upload req st) = true /\
  badgelink_xfer_size (badgelink_fs_upload req st) = wrap32 (req_size req) /\
  badgelink_xfer_pos (badgelink_fs_upload req st) = 0 /\
  xfer_crc32 (badgelink_fs_upload req st) = wrap32 (req_crc32 req) /\
  running_crc (badgelink_fs_upload req st) = 0 /\
  xfer_path (badgelink_fs_upload req st) = req_path req /\
  nodes (os (badgelink_fs_upload req st))
    = <[req_path req := File empty_file]> (nodes (os st)) /\
  xfer_stream (badgelink_fs_upload req st) (next_stream (os st))
    {| s_path := req_path req; s_write := true; s_pos := 0;
       s_eof := false; s_err := false |} empty_file.
Proof.
  intros Hidle Hw Hlen. unfold badgelink_fs_upload.
  rewrite Hidle, open_wb_eq, (fopen_wb_ok _ _ Hw). cbn [new_stream].
  split; [now apply emitted_status|].
  cbn. rewrite strlcpy_fits by (cbn; lia).
  repeat (split; [reflexivity|]).
  unfold xfer_stream. cbn. rewrite !lookup_insert_eq. repeat split.
Qed.

(** X5: An upload start in the idle state on a path that can be opened for
    writing, of at most 255 characters: the answer is StatusOk; the
    transfer is a filesystem upload at position 0 with the announced
    size and CRC (as 32-bit values) and a running CRC of 0; the path
    kept for the transfer is the request's; and the target is now an
    empty file with a fresh writable stream on it, whatever it held
    before. *)
Theorem upload_start req st :
  badgelink_xfer_type st = BADGELINK_XFER_NONE ->
  writable_target (req_path req) (os st) = true ->
  (String.length (req_path req) <= 255)%nat ->
  emitted st (badgelink_fs_upload req st)
    = [ {| status_code := StatusOk; resp := RespNone |} ] /\
  badgelink_xfer_type (badgelink_fs_upload req st) = BADGELINK_XFER_FS /\
  badgelink_xfer_is_upload (badgelink_fs_upload req st) = true /\
  badgelink_xfer_size (badgelink_fs_upload req st) = wrap32 (req_size req) /\
  badgelink_xfer_pos (badgelink_fs_upload req st) = 0 /\
  xfer_crc32 (badgelink_fs_upload req st) = wrap32 (req_crc32 req) /\
  running_crc (badgelink_fs_upload req st) = 0 /\
  xfer_path (badgelink_fs_upload req st) = req_path req /\
  nodes (os (badgelink_fs_upload req st))
    = <[req_path req := File empty_file]> (nodes (os st)) /\
  xfer_stream (badgelink_fs_upload req st) (next_stream (os st))
    {| s_path := req_path req; s_write := true; s_pos := 0;
       s_eof := false; s_err := false |} empty_file.
Proof. apply upload_started. Qed.

Lemma upload_start_witness :
  let req := req_for "/a.bin" 3 7 in
  badgelink_xfer_type (idle 1) = BADGELINK_XFER_NONE /\
  writable_target (req_path req) (os (idle 1)) = true /\
  (String.length (req_path req) <= 255)%nat /\
  emitted (idle 1) (badgelink_fs_upload req (idle 1))
    = [ {| status_code := StatusOk; resp := RespNone |} ] /\
  nodes (os (badgelink_fs_upload req (idle 1))) !! "/a.bin" = Some (File empty_file).
Proof.
  intros req.
  assert (H1 : badgelink_xfer_type (idle 1) = BADGELINK_XFER_NONE) by reflexivity.
  assert (H2 : writable_target (req_path req) (os (idle 1)) = true)
    by (vm_compute; reflexivity).
  assert (H3 : (String.length (req_path req) <= 255)%nat) by (cbn; lia).
  destruct (upload_start req (idle 1) H1 H2 H3)
    as (He & _ & _ & _ & _ & _ & _ & _ & Hn & _).
  assert (Hf : nodes (os (badgelink_fs_upload req (idle 1))) !! "/a.bin"
               = Some (File empty_file))
    by (rewrite Hn; apply lookup_insert_eq).
  from_hyps.
Defined.



Lemma store_at_end pos data old :
  pos = length old -> store_at pos data old = old ++ data.
Proof.
  intros ->. unfold store_at.
  rewrite firstn_all, Nat.sub_diag, drop_ge by lia. cbn. now rewrite app_nil_r.
Qed.

(** One chunk through a writable stream that stands at the end of its
    file, on a medium without limit: the chunk is appended, answered
    StatusOk, and the stream stands at the new end. *)
Lemma xfer_upload_append chunk st h s f :
  xfer_stream st h s f ->
  s_write s = true ->
  quota (os st) = None ->
  s_pos s = length (f_data f) ->
  let f' := {| f_data := f_data f ++ chunk; f_rfault := f_rfault f |} in
  exists s',
    xfer_stream (badgelink_fs_xfer_upload chunk st) h s' f' /\
    s_write s' = true /\ s_path s' = s_path s /\
    s_pos s' = length (f_data f') /\
    quota (os (badgelink_fs_xfer_upload chunk st)) = None /\
    nodes (os (badgelink_fs_xfer_upload chunk st))
      = <[s_path s := File f']> (nodes (os st)) /\
    last_status (badgelink_fs_xfer_upload chunk st) = Some StatusOk /\
    xfer_path (badgelink_fs_xfer_upload chunk st) = xfer_path st /\
    xfer_crc32 (badgelink_fs_xfer_upload chunk st) = xfer_crc32 st /\
    badgelink_xfer_is_upload (badgelink_fs_xfer_upload chunk st)
      = badgelink_xfer_is_upload st.
Proof.
  intros (Hfd & Hs & Hf) Hw Hq Hpos f'.
  unfold badgelink_fs_xfer_upload, fwrite. rewrite Hfd, Hs, Hw, Hf, Hq.
  rewrite (Nat.ltb_irrefl (length chunk)), firstn_all, (store_at_end _ _ _ Hpos).
  exists {| s_path := s_path s; s_write := true;
            s_pos := (s_pos s + length chunk)%nat; s_eof := s_eof s;
            s_err := s_err s || false |}.
  unfold xfer_stream, last_status. cbn.
  rewrite !lookup_insert_eq, last_snoc. cbn. rewrite Hfd.
  split; [repeat split|].
  repeat (split; [reflexivity|]).
  split; [rewrite Hpos, length_app; reflexivity|].
  repeat split.
Qed.

Lemma upload_run_append chunks : forall st h s f,
  xfer_stream st h s f ->
  s_write s = true ->
  quota (os st) = None ->
  s_pos s = length (f_data f) ->
  let f' := {| f_data := f_data f ++ concat chunks; f_rfault := f_rfault f |} in
  all_accepted chunks st /\
  xfer_fd (upload_run chunks st) = Some h /\
  nodes (os (upload_run chunks st)) = <[s_path s := File f']> (nodes (os st)) /\
  xfer_path (upload_run chunks st) = xfer_path st /\
  xfer_crc32 (upload_run chunks st) = xfer_crc32 st /\
  badgelink_xfer_is_upload (upload_run chunks st) = badgelink_xfer_is_upload st.
Proof.
  induction chunks as [|c rest IH]; intros st h s f Hx Hw Hq Hpos f'.
  - subst f'. cbn [concat upload_run fold_left]. rewrite app_nil_r.
    destruct Hx as (Hfd & Hs & Hf). split; [reflexivity|]. split; [exact Hfd|].
    split; [|repeat split].
    rewrite insert_id; [reflexivity|]. rewrite Hf. now destruct f.
  - destruct (xfer_upload_append c st h s f Hx Hw Hq Hpos)
      as (s1 & Hx1 & Hw1 & Hp1 & Hpos1 & Hq1 & Hn1 & Hl1 & Hxp1 & Hxc1 & Hu1).
    destruct (IH _ h s1 _ Hx1 Hw1 Hq1 Hpos1) as (Hacc & Hfd & Hn & Hxp & Hxc & Hu).
    change (upload_run (c :: rest) st)
      with (upload_run rest (badgelink_fs_xfer_upload c st)).
    split.
    { unfold all_accepted in *. cbn [accepted]. rewrite Hl1, Hacc. reflexivity. }
    split; [exact Hfd|]. split.
    { rewrite Hn, Hn1, Hp1, insert_insert_eq. subst f'. cbn [f_data f_rfault concat].
      now rewrite app_assoc. }
    split; [congruence|]. split; congruence.
Qed.

Lemma xfer_stop_upload st :
  badgelink_xfer_is_upload st = true ->
  badgelink_fs_xfer_stop false st
    = if running_crc st =? xfer_crc32 st
      then badgelink_status_ok (set_os (fclose (xfer_fd st) (os st)) st)
      else badgelink_status_int_err
             (set_os (snd (unlink (xfer_path st) (fclose (xfer_fd st) (os st)))) st).
Proof.
  intros Hup. unfold badgelink_fs_xfer_stop. cbn [negb]. rewrite Hup.
  rewrite xfer_close_eq. cbn [running_crc xfer_crc32 set_os xfer_path os].
  destruct (running_crc st =? xfer_crc32 st); reflexivity.
Qed.

(** X7: A whole upload on a medium without limit, from the idle state to a
    normal finish, whatever size was announced: when the CRC-32 of the
    bytes sent equals the announced CRC (as a 32-bit value), the finish
    is answered StatusOk and the target holds exactly the chunks'
    bytes, in order; otherwise it is answered StatusInternalError and
    the target is gone, also when it existed before the upload.  In both
    cases the upload's stream is closed. *)
Theorem upload_transfer_outcome req chunks st :
  badgelink_xfer_type st = BADGELINK_XFER_NONE ->
  writable_target (req_path req) (os st) = true ->
  (String.length (req_path req) <= 255)%nat ->
  quota (os st) = None ->
  streams (os (upload_transfer req chunks st)) !! next_stream (os st) = None /\
  (crc32 (concat chunks) = wrap32 (req_crc32 req) ->
   last_status (upload_transfer req chunks st) = Some StatusOk /\
   nodes (os (upload_transfer req chunks st))
     = <[req_path req := File {| f_data := concat chunks; f_rfault := None |}]>
         (nodes (os st))) /\
  (crc32 (concat chunks) <> wrap32 (req_crc32 req) ->
   last_status (upload_transfer req chunks st) = Some StatusInternalError /\
   nodes (os (upload_transfer req chunks st)) = delete (req_path req) (nodes (os st))).
Proof.
  intros Hidle Hw Hlen Hq.
  destruct (upload_started req st Hidle Hw Hlen)
    as (_ & _ & Hup & _ & _ & Hxc & Hrc & Hxp & Hn & Hx).
  set (st1 := badgelink_fs_upload req st) in *.
  assert (Hq1 : quota (os st1) = None).
  { subst st1. unfold badgelink_fs_upload.
    rewrite Hidle, open_wb_eq, (fopen_wb_ok _ _ Hw). exact Hq. }
  destruct (upload_run_append chunks st1 _ _ _ Hx eq_refl Hq1 eq_refl)
    as (Hacc & Hfd2 & Hn2 & Hxp2 & Hxc2 & Hup2).
  pose proof (upload_run_crc chunks st1) as Hcrc.
  rewrite Hacc, Hrc in Hcrc. fold (crc32 (concat chunks)) in Hcrc.
  cbn [s_path f_data f_rfault empty_file app] in Hn2.
  rewrite Hn, insert_insert_eq in Hn2.
  unfold upload_transfer. fold st1.
  set (st2 := upload_run chunks st1) in *.
  rewrite (xfer_stop_upload st2) by congruence.
  rewrite Hcrc, Hxc2, Hxc, Hfd2, Hxp2, Hxp.
  destruct (crc32 (concat chunks) =? wrap32 (req_crc32 req)) eqn:E.
  - apply Z.eqb_eq in E. split; [cbn; apply lookup_delete_eq|].
    split; [|congruence]. intros _. split.
    + unfold last_status. cbn. now rewrite last_snoc.
    + cbn. exact Hn2.
  - apply Z.eqb_neq in E. split.
    + cbn. rewrite unlink_streams. cbn. apply lookup_delete_eq.
    + split; [congruence|]. intros _. split.
      * unfold last_status. cbn. now rewrite last_snoc.
      * cbn. erewrite unlink_file.
        -- cbn. rewrite Hn2. apply delete_insert_eq.
        -- cbn. rewrite Hn2. apply lookup_insert_eq.
Qed.

Lemma upload_transfer_outcome_witness :
  let chunks := [bytes_of "1234"; bytes_of "56789"] in
  (let req := req_for "/up.bin" 9 0xCBF43926 in
   badgelink_xfer_type (idle 1) = BADGELINK_XFER_NONE /\
   writable_target (req_path req) (os (idle 1)) = true /\
   (String.length (req_path req) <= 255)%nat /\
   quota (os (idle 1)) = None /\
   crc32 (concat chunks) = wrap32 (req_crc32 req) /\
   last_status (upload_transfer req chunks (idle 1)) = Some StatusOk /\
   nodes (os (upload_transfer req chunks (idle 1))) !! "/up.bin"
     = Some (File {| f_data := bytes_of "123456789"; f_rfault := None |})) /\
  (let req := req_for "/a.bin" 9 1 in
   writable_target (req_path req) (os (idle 1)) = true /\
   crc32 (concat chunks) <> wrap32 (req_crc32 req) /\
   last_status (upload_transfer req chunks (idle 1)) = Some StatusInternalError /\
   nodes (os (upload_transfer req chunks (idle 1))) !! "/a.bin" = None).
Proof.
  intros chunks. split; intros req.
  - assert (H1 : badgelink_xfer_type (idle 1) = BADGELINK_XFER_NONE) by reflexivity.
    assert (H2 : writable_target (req_path req) (os (idle 1)) = true)
      by (vm_compute; reflexivity).
    assert (H3 : (String.length (req_path req) <= 255)%nat) by (cbn; lia).
    assert (H4 : quota (os (idle 1)) = None) by reflexivity.
    assert (H5 : crc32 (concat chunks) = wrap32 (req_crc32 req))
      by (vm_compute; reflexivity).
    destruct (upload_transfer_outcome req chunks (idle 1) H1 H2 H3 H4) as (_ & Hok & _).
    destruct (Hok H5) as [Hl Hn].
    assert (Hf : nodes (os (upload_transfer req chunks (idle 1))) !! "/up.bin"
                 = Some (File {| f_data := bytes_of "123456789"; f_rfault := None |}))
      by (rewrite Hn; apply lookup_insert_eq).
    from_hyps.
  - assert (H1 : badgelink_xfer_type (idle 1) = BADGELINK_XFER_NONE) by reflexivity.
    assert (H2 : writable_target (req_path req) (os (idle 1)) = true)
      by (vm_compute; reflexivity).
    assert (H3 : (String.length (req_path req) <= 255)%nat) by (cbn; lia).
    assert (H4 : quota (os (idle 1)) = None) by reflexivity.
    assert (H5 : crc32 (concat chunks) <> wrap32 (req_crc32 req))
      by (vm_compute; discriminate).
    destruct (upload_transfer_outcome req chunks (idle 1) H1 H2 H3 H4) as (_ & _ & Hbad).
    destruct (Hbad H5) as [Hl Hn].
    assert (Hf : nodes (os (upload_transfer req chunks (idle 1))) !! "/a.bin" = None)
      by (rewrite Hn; apply lookup_delete_eq).
    from_hyps.
Defined.

(** ** Download: chunks, read errors, whole transfers *)

(** One XferContinue on a stream without error, where the read cannot
    meet the medium's fault: a StatusOk chunk with the next bytes of the
    file, as many as the chunk buffer and the file allow. *)
Lemma xfer_download_chunk cfg st h s f :
  xfer_stream st h s f ->
  s_err s = false ->
  (s_pos s <= read_limit f)%nat ->
  faulty f = false \/ (s_pos s + CHUNK_SIZE cfg <= read_limit f)%nat ->
  exists s',
    sent (badgelink_fs_xfer_download cfg st)
      = sent st ++
        [ {| status_code := StatusOk;
             resp := RespDownloadChunk (badgelink_xfer_pos st)
                       (take (Nat.min (CHUNK_SIZE cfg) (read_limit f - s_pos s))
                          (drop (s_pos s) (f_data f))) |} ] /\
    xfer_stream (badgelink_fs_xfer_download cfg st) h s' f /\
    s_err s' = false /\
    s_pos s' = (s_pos s + Nat.min (CHUNK_SIZE cfg) (read_limit f - s_pos s))%nat /\
    nodes (os (badgelink_fs_xfer_download cfg st)) = nodes (os st).
Proof.
  intros (Hfd & Hs & Hf) Herr Hpos Hsafe.
  destruct (fread_ready (CHUNK_SIZE cfg) h s f (os st) Hs Hf Hpos)
    as (os1 & s1 & Hread & _ & Hn1 & Hs1 & Hp1 & Hpos1 & Herr1).
  assert (Hok : s_err s1 = false).
  { rewrite Herr1, Herr. destruct Hsafe as [->|Hfull].
    - now rewrite andb_false_r.
    - replace (Nat.min (CHUNK_SIZE cfg) (read_limit f - s_pos s)) with (CHUNK_SIZE cfg)
        by lia.
      now rewrite Nat.ltb_irrefl. }
  unfold badgelink_fs_xfer_download. rewrite Hfd, Hread.
  cbn [xfer_fd set_os os]. unfold ferror. rewrite Hfd, Hs1, Hok.
  exists s1. unfold xfer_stream, badgelink_get_protocol_version.
  destruct (2 <=? protocol_version (set_os os1 st)); cbn;
    rewrite Hfd, Hs1, Hp1, Hn1, Hf; repeat split; assumption.
Qed.

Lemma forallb_snoc {A} (p : A -> bool) l x :
  forallb p (l ++ [x]) = forallb p l && p x.
Proof. rewrite forallb_app. cbn. now rewrite andb_true_r. Qed.

(** A run of XferContinue requests none of whose reads can meet the
    medium's fault delivers the file from the stream's position on,
    chunk after chunk. *)
Lemma download_run_chunks cfg n : forall st h s f,
  xfer_stream st h s f ->
  s_err s = false ->
  (s_pos s <= read_limit f)%nat ->
  faulty f = false \/ (s_pos s + n * CHUNK_SIZE cfg <= read_limit f)%nat ->
  exists s' ps,
    sent (download_run cfg n st) = sent st ++ ps /\
    length ps = n /\
    forallb is_chunk ps = true /\
    chunk_bytes ps
      = take (Nat.min (n * CHUNK_SIZE cfg) (read_limit f - s_pos s))
          (drop (s_pos s) (f_data f)) /\
    xfer_stream (download_run cfg n st) h s' f /\
    s_err s' = false /\
    s_pos s' = (s_pos s + Nat.min (n * CHUNK_SIZE cfg) (read_limit f - s_pos s))%nat /\
    nodes (os (download_run cfg n st)) = nodes (os st).
Proof.
  induction n as [|n IH]; intros st h s f Hx Herr Hpos Hsafe.
  - exists s, []. cbn. rewrite app_nil_r, Nat.add_0_r.
    repeat (split; [reflexivity || assumption|]). reflexivity.
  - destruct (IH st h s f Hx Herr Hpos) as (s1 & ps & Hs & Hlen & Hall & Hb & Hx1 & He1 & Hp1 & Hn1).
    { destruct Hsafe as [Hc|Hfull]; [now left|right; lia]. }
    change (download_run cfg (S n) st)
      with (badgelink_fs_xfer_download cfg (download_run cfg n st)).
    set (m := Nat.min (n * CHUNK_SIZE cfg) (read_limit f - s_pos s)) in *.
    destruct (xfer_download_chunk cfg (download_run cfg n st) h s1 f Hx1 He1)
      as (s2 & Hs2 & Hx2 & He2 & Hp2 & Hn2).
    { lia. }
    { destruct Hsafe as [Hc|Hfull]; [now left|right; lia]. }
    eexists s2, (ps ++ [_]). rewrite Hs2, Hs, <- app_assoc.
    split; [reflexivity|]. split; [rewrite length_app; cbn; lia|].
    split; [rewrite forallb_snoc, Hall; reflexivity|].
    split.
    { rewrite chunk_bytes_app, Hb. unfold chunk_bytes at 1. cbn [map concat resp].
      rewrite app_nil_r, Hp1, <- drop_drop, take_take_drop. f_equal. lia. }
    split; [exact Hx2|]. split; [exact He2|]. split; [lia|]. congruence.
Qed.

(** X8: After a download is set up on a file without fault, with the stream
    at offset 0 and no error, [n] XferContinue requests are answered by
    [n] StatusOk chunks whose bytes, joined, are the first
    [n * CHUNK_SIZE] bytes of the file: the whole file once
    [n * CHUNK_SIZE] reaches its length, after which the chunks are
    empty.  The file store is not touched. *)
Theorem download_chunks_deliver cfg n st h s f :
  xfer_stream st h s f ->
  faulty f = false ->
  s_err s = false ->
  s_pos s = 0%nat ->
  length (emitted st (download_run cfg n st)) = n /\
  forallb is_chunk (emitted st (download_run cfg n st)) = true /\
  chunk_bytes (emitted st (download_run cfg n st))
    = take (n * CHUNK_SIZE cfg) (f_data f) /\
  ((length (f_data f) <= n * CHUNK_SIZE cfg)%nat ->
   chunk_bytes (emitted st (download_run cfg n st)) = f_data f) /\
  nodes (os (download_run cfg n st)) = nodes (os st).
Proof.
  intros Hx Hclean Herr Hpos.
  destruct (download_run_chunks cfg n st h s f Hx Herr) as
    (s' & ps & Hs & Hlen & Hall & Hb & _ & _ & _ & Hn); [lia|now left|].
  rewrite (emitted_app _ _ _ Hs).
  rewrite Hpos, drop_0, Nat.sub_0_r, (read_limit_clean f Hclean) in Hb.
  assert (Hb' : chunk_bytes ps = take (n * CHUNK_SIZE cfg) (f_data f)).
  { rewrite Hb. destruct (Nat.le_ge_cases (n * CHUNK_SIZE cfg) (length (f_data f))).
    - now rewrite Nat.min_l.
    - rewrite Nat.min_r by assumption. now rewrite firstn_all, take_ge. }
  split; [exact Hlen|]. split; [exact Hall|]. split; [exact Hb'|].
  split; [|exact Hn]. intros Hge. rewrite Hb'. now apply take_ge.
Qed.

Lemma download_chunks_deliver_witness :
  let st := downloading 1 in
  xfer_stream st 3%nat
    {| s_path := "/a.bin"; s_write := false; s_pos := 0; s_eof := false; s_err := false |}
    {| f_data := bytes_of "123456789"; f_rfault := None |} /\
  (9 <= 3 * CHUNK_SIZE cfg0)%nat /\
  length (emitted st (download_run cfg0 3 st)) = 3%nat /\
  chunk_bytes (emitted st (download_run cfg0 3 st)) = bytes_of "123456789".
Proof.
  intros st.
  assert (Hx : xfer_stream st 3%nat
                 {| s_path := "/a.bin"; s_write := false; s_pos := 0;
                    s_eof := false; s_err := false |}
                 {| f_data := bytes_of "123456789"; f_rfault := None |})
    by (unfold xfer_stream; vm_compute; auto).
  assert (Hn : (9 <= 3 * CHUNK_SIZE cfg0)%nat) by (cbn; lia).
  destruct (download_chunks_deliver cfg0 3 st 3%nat _ _ Hx eq_refl eq_refl eq_refl)
    as (Hlen & _ & _ & Hall & _).
  specialize (Hall Hn). cbn [f_data] in Hall.
  from_hyps.
Defined.

Lemma fread_keeps_error n fd os0 :
  ferror fd os0 = true -> ferror fd (snd (fread n fd os0)) = true.
Proof.
  unfold ferror, fread. destruct fd as [h|]; [|discriminate].
  destruct (streams os0 !! h) as [s|] eqn:Hs; [|discriminate].
  intros Herr.
  destruct (nodes os0 !! s_path s) as [[f|ents]|];
    try (cbn; now rewrite lookup_insert_eq).
  destruct ((length (take (Nat.min n (read_limit f - s_pos s))
                       (drop (s_pos s) (f_data f))) <? n)%nat && faulty f);
    cbn; rewrite lookup_insert_eq; cbn; now rewrite Herr.
Qed.

(** One XferContinue on a stream whose error indicator is up. *)
Lemma xfer_download_error cfg st :
  ferror (xfer_fd st) (os st) = true ->
  sent (badgelink_fs_xfer_download cfg st) = sent st ++ [int_err_packet] /\
  running_crc (badgelink_fs_xfer_download cfg st) = running_crc st /\
  xfer_fd (badgelink_fs_xfer_download cfg st) = xfer_fd st /\
  ferror (xfer_fd (badgelink_fs_xfer_download cfg st))
    (os (badgelink_fs_xfer_download cfg st)) = true.
Proof.
  intros Herr. pose proof (fread_keeps_error (CHUNK_SIZE cfg) _ _ Herr) as Hkeep.
  unfold badgelink_fs_xfer_download.
  destruct (fread (CHUNK_SIZE cfg) (xfer_fd st) (os st)) as [bytes os1].
  cbn [snd xfer_fd set_os os] in *. rewrite Hkeep. cbn. auto.
Qed.

Lemma download_run_error cfg n : forall st,
  ferror (xfer_fd st) (os st) = true ->
  sent (download_run cfg n st) = sent st ++ replicate n int_err_packet /\
  running_crc (download_run cfg n st) = running_crc st /\
  xfer_fd (download_run cfg n st) = xfer_fd st /\
  ferror (xfer_fd (download_run cfg n st)) (os (download_run cfg n st)) = true.
Proof.
  induction n as [|n IH]; intros st Herr.
  - cbn. rewrite app_nil_r. auto.
  - destruct (IH st Herr) as (Hs & Hrc & Hfd & He).
    change (download_run cfg (S n) st)
      with (badgelink_fs_xfer_download cfg (download_run cfg n st)).
    destruct (xfer_download_error cfg _ He) as (Hs' & Hrc' & Hfd' & He').
    rewrite Hs', Hs, Hrc', Hrc, Hfd', Hfd, replicate_S_end, app_assoc.
    repeat split. rewrite <- Hfd, <- Hfd'. exact He'.
Qed.

(** X9: Once the stream's error indicator is up, every XferContinue is
    answered StatusInternalError, no chunk is sent any more, and the
    running CRC stays as it is, however many requests follow. *)
Theorem download_error_sticky cfg n st :
  ferror (xfer_fd st) (os st) = true ->
  emitted st (download_run cfg n st) = replicate n int_err_packet /\
  running_crc (download_run cfg n st) = running_crc st /\
  ferror (xfer_fd (download_run cfg n st)) (os (download_run cfg n st)) = true.
Proof.
  intros Herr. destruct (download_run_error cfg n st Herr) as (Hs & Hrc & _ & He).
  split; [exact (emitted_app _ _ _ Hs)|]. split; assumption.
Qed.

(** One XferContinue whose read runs into the medium's fault: the bytes
    read before the fault are not sent, the answer is
    StatusInternalError, and the error indicator is up. *)
Lemma xfer_download_hits_fault cfg st h s f :
  xfer_stream st h s f ->
  (s_pos s <= read_limit f)%nat ->
  faulty f = true ->
  (read_limit f < s_pos s + CHUNK_SIZE cfg)%nat ->
  sent (badgelink_fs_xfer_download cfg st) = sent st ++ [int_err_packet] /\
  ferror (xfer_fd (badgelink_fs_xfer_download cfg st))
    (os (badgelink_fs_xfer_download cfg st)) = true.
Proof.
  intros (Hfd & Hs & Hf) Hpos Hbad Hshort.
  destruct (fread_ready (CHUNK_SIZE cfg) h s f (os st) Hs Hf Hpos)
    as (os1 & s1 & Hread & _ & Hn1 & Hs1 & Hp1 & Hpos1 & Herr1).
  assert (Hup : s_err s1 = true).
  { rewrite Herr1, Hbad, andb_true_r.
    replace (Nat.min (CHUNK_SIZE cfg) (read_limit f - s_pos s) <? CHUNK_SIZE cfg)%nat
      with true; [apply orb_true_r|].
    symmetry. apply Nat.ltb_lt. lia. }
  unfold badgelink_fs_xfer_download. rewrite Hfd, Hread.
  cbn [xfer_fd set_os os]. unfold ferror. rewrite Hfd, Hs1, Hup.
  cbn. rewrite Hfd, Hs1. auto.
Qed.

(** X10: A download over a medium that fails at offset [k], inside the file,
    from a stream at offset 0: only whole chunks that end at or before
    [k] are delivered, [k / CHUNK_SIZE] of them at most; the request
    whose read meets the fault and all later ones are answered
    StatusInternalError.  Bytes read before the fault by that request
    are never sent. *)
Theorem download_stops_at_fault cfg n st h s f k :
  xfer_stream st h s f ->
  s_err s = false ->
  s_pos s = 0%nat ->
  f_rfault f = Some k ->
  (k < length (f_data f))%nat ->
  (0 < CHUNK_SIZE cfg)%nat ->
  exists ps,
    emitted st (download_run cfg n st)
      = ps ++ replicate (n - k / CHUNK_SIZE cfg) int_err_packet /\
    length ps = Nat.min n (k / CHUNK_SIZE cfg) /\
    forallb is_chunk ps = true /\
    chunk_bytes ps = take (Nat.min n (k / CHUNK_SIZE cfg) * CHUNK_SIZE cfg) (f_data f).
Proof.
  intros Hx Herr Hpos Hfault Hk Hc.
  destruct (read_limit_faulty f k Hfault Hk) as [Hlim Hbad].
  set (C := CHUNK_SIZE cfg) in *. set (q := (k / C)%nat).
  assert (Hq : (q * C <= k < q * C + C)%nat).
  { pose proof (Nat.div_mod_eq k C). pose proof (Nat.mod_upper_bound k C). subst q. nia. }
  destruct (Nat.le_gt_cases n q) as [Hle|Hgt].
  - destruct (download_run_chunks cfg n st h s f Hx Herr) as
      (s' & ps & Hs & Hlen & Hall & Hb & _); [lia|right; fold C; nia|].
    exists ps. rewrite (emitted_app _ _ _ Hs).
    replace (n - q)%nat with 0%nat by lia. cbn [replicate]. rewrite app_nil_r.
    rewrite Nat.min_l by lia. fold C in Hb.
    rewrite Hpos, drop_0, Nat.sub_0_r, Hlim, Nat.min_l in Hb by nia.
    repeat split; assumption.
  - destruct (download_run_chunks cfg q st h s f Hx Herr) as
      (s1 & ps & Hs & Hlen & Hall & Hb & Hx1 & He1 & Hp1 & _); [lia|right; fold C; lia|].
    fold C in Hb, Hp1.
    rewrite Hpos, Nat.sub_0_r, Hlim, Nat.min_l in Hp1 by lia.
    rewrite Hpos, drop_0, Nat.sub_0_r, Hlim, Nat.min_l in Hb by lia.
    destruct (xfer_download_hits_fault cfg (download_run cfg q st) h s1 f Hx1)
      as (Hs2 & He2); [lia|exact Hbad|fold C; lia|].
    assert (Hrun : download_run cfg n st
                   = download_run cfg (n - S q)
                       (badgelink_fs_xfer_download cfg (download_run cfg q st))).
    { unfold download_run.
      change (badgelink_fs_xfer_download cfg (Nat.iter q (badgelink_fs_xfer_download cfg) st))
        with (Nat.iter (S q) (badgelink_fs_xfer_download cfg) st).
      rewrite <- Nat.iter_add. f_equal. lia. }
    destruct (download_run_error cfg (n - S q) _ He2) as (Hs3 & _).
    rewrite Hrun.
    exists ps. rewrite Nat.min_r by lia. split.
    + apply emitted_app. rewrite Hs3, Hs2, Hs, <- !app_assoc. do 2 f_equal.
      change ([int_err_packet] ++ ?l) with (int_err_packet :: l).
      rewrite replicate_cons_app, <- replicate_S_end. f_equal. lia.
    + repeat split; assumption.
Qed.

Lemma download_stops_at_fault_witness :
  let st := downloading_bad 2 in
  xfer_stream st 3%nat
    {| s_path := "/bad.bin"; s_write := false; s_pos := 0; s_eof := false; s_err := false |}
    {| f_data := bytes_of "123456789"; f_rfault := Some 4%nat |} /\
  (4 < 9)%nat /\ (0 < CHUNK_SIZE cfg0)%nat /\
  exists ps,
    emitted st (download_run cfg0 3 st) = ps ++ replicate 2 int_err_packet /\
    length ps = 1%nat /\
    chunk_bytes ps = bytes_of "1234".
Proof.
  intros st.
  assert (Hx : xfer_stream st 3%nat
                 {| s_path := "/bad.bin"; s_write := false; s_pos := 0;
                    s_eof := false; s_err := false |}
                 {| f_data := bytes_of "123456789"; f_rfault := Some 4%nat |})
    by (unfold xfer_stream; vm_compute; auto).
  assert (Hk : (4 < 9)%nat) by lia.
  assert (Hc : (0 < CHUNK_SIZE cfg0)%nat) by (cbn; lia).
  destruct (download_stops_at_fault cfg0 3 st 3%nat _ _ 4%nat Hx eq_refl eq_refl eq_refl Hk Hc)
    as (ps & He & Hlen & _ & Hb).
  split; [exact Hx|]. split; [exact Hk|]. split; [exact Hc|].
  exists ps. split; [exact He|]. split; [exact Hlen|exact Hb].
Defined.

Lemma download_error_sticky_witness :
  let st := download_run cfg0 2 (downloading_bad 2) in
  ferror (xfer_fd st) (os st) = true /\
  emitted st (download_run cfg0 3 st) = replicate 3 int_err_packet /\
  running_crc (download_run cfg0 3 st) = crc32 (bytes_of "1234").
Proof.
  intros st.
  assert (H : ferror (xfer_fd st) (os st) = true) by (vm_compute; reflexivity).
  destruct (download_error_sticky cfg0 3 st H) as (He & Hrc & _).
  assert (Hv : running_crc st = crc32 (bytes_of "1234")) by (vm_compute; reflexivity).
  rewrite Hv in Hrc. from_hyps.
Defined.


(** A version 1 start that opens its file, in full: the state it
    leaves. *)
Lemma download_v1_started fuel req st f :
  badgelink_xfer_type st = BADGELINK_XFER_NONE ->
  nodes (os st) !! req_path req = Some (File f) ->
  protocol_version st < 2 ->
  (read_limit f < fuel)%nat ->
  exists st1 s1,
    badgelink_fs_download fuel req st = Some st1 /\
    sent st1 = sent st ++
      [{| status_code := StatusOk;
          resp := RespFsCrc32 (crc32 (take (read_limit f) (f_data f)))
                    (wrap32 (Z.of_nat (read_limit f))) |}] /\
    xfer_stream st1 (next_stream (os st)) s1 f /\
    s_pos s1 = 0%nat /\
    s_err s1 = faulty f /\
    nodes (os st1) = nodes (os st) /\
    protocol_version st1 = protocol_version st /\
    badgelink_xfer_is_upload st1 = false /\
    badgelink_xfer_size st1 = wrap32 (Z.of_nat (read_limit f)).
Proof.
  intros Hidle Hf Hv Hfuel.
  set (fresh := {| s_path := req_path req; s_write := false; s_pos := 0%nat;
                   s_eof := false; s_err := false |}).
  destruct (crc_scan_spec f (next_stream (os st)) fuel 0 0
              (snd (new_stream (req_path req) false (os st))) fresh)
    as (os2 & s2 & Hscan & Hn2 & Hs2 & Hp2 & Hpos2 & Herr2).
  { cbn. apply lookup_insert_eq. }
  { cbn. exact Hf. }
  { cbn. lia. }
  { cbn. lia. }
  cbn [s_pos fresh] in Hscan. rewrite Nat.sub_0_r, drop_0, Z.add_0_l in Hscan.
  destruct (fseek_set0_rewinds _ _ _ Hs2) as (s' & Hs' & Hp' & Hpos' & Herr').
  unfold badgelink_fs_download. rewrite Hidle, (open_rb_file req st f Hf).
  unfold badgelink_get_protocol_version.
  cbn [new_stream set_os set_target xfer_fd os protocol_version].
  apply Z.leb_gt in Hv. rewrite Hv.
  subst fresh. cbn [new_stream snd] in Hscan, Hn2. rewrite Hscan.
  eexists. exists s'. split; [reflexivity|]. split; [reflexivity|].
  unfold xfer_stream. cbn -[fseek_set0].
  assert (Hnodes : nodes (fseek_set0 (Some (next_stream (os st))) os2) = nodes (os st)).
  { unfold fseek_set0. rewrite Hs2. cbn. exact Hn2. }
  rewrite Hs', Hnodes, Hp', Hp2. cbn [s_path].
  split; [repeat split; assumption|]. split; [exact Hpos'|].
  split; [rewrite Herr', Herr2; reflexivity|]. repeat split.
Qed.

(** A start at version 2 or later that opens its file and gets its
    size from [fstat], in full: the state it leaves. *)
Lemma download_v2_started fuel req st f :
  badgelink_xfer_type st = BADGELINK_XFER_NONE ->
  nodes (os st) !! req_path req = Some (File f) ->
  2 <= protocol_version st ->
  fstat_fault (os st) = None ->
  exists st1,
    badgelink_fs_download fuel req st = Some st1 /\
    sent st1 = sent st ++
      [{| status_code := StatusOk;
          resp := RespFsCrc32 0 (wrap32 (Z.of_nat (length (f_data f)))) |}] /\
    xfer_stream st1 (next_stream (os st))
      {| s_path := req_path req; s_write := false; s_pos := 0;
         s_eof := false; s_err := false |} f /\
    nodes (os st1) = nodes (os st) /\
    protocol_version st1 = protocol_version st /\
    badgelink_xfer_is_upload st1 = false /\
    badgelink_xfer_size st1 = wrap32 (Z.of_nat (length (f_data f))) /\
    running_crc st1 = 0.
Proof.
  intros Hidle Hf Hv Hstat.
  unfold badgelink_fs_download. rewrite Hidle, (open_rb_file req st f Hf).
  unfold badgelink_get_protocol_version, fstat_size.
  cbn [new_stream set_os set_target xfer_fd os protocol_version fstat_fault
       streams nodes].
  apply Z.leb_le in Hv. rewrite Hv, Hstat, lookup_insert_eq. cbn [s_path].
  rewrite Hf. eexists. split; [reflexivity|]. split; [reflexivity|].
  unfold xfer_stream. cbn. rewrite lookup_insert_eq. cbn. rewrite Hf.
  repeat split.
Qed.

Lemma xfer_stop_download st :
  badgelink_xfer_is_upload st = false ->
  badgelink_fs_xfer_stop false st
    = if 2 <=? protocol_version st
      then badgelink_send_packet
             {| status_code := StatusOk;
                resp := RespFsCrc32 (running_crc st) (badgelink_xfer_size st) |}
             (set_os (fclose (xfer_fd st) (os st)) st)
      else badgelink_status_ok (set_os (fclose (xfer_fd st) (os st)) st).
Proof.
  intros Hup. unfold badgelink_fs_xfer_stop. cbn [negb]. rewrite Hup.
  rewrite xfer_close_eq. reflexivity.
Qed.



(** X12: A whole download of a file without fault that fits a 32-bit size,
    from the idle state over enough XferContinue requests to a normal
    finish.  The chunks deliver exactly the file's bytes, and the client
    is told their CRC-32 once: below version 2 in the start response,
    the finish being a plain StatusOk, and from version 2 on in the
    finish response, the start response carrying 0.  Both responses
    carry the file's length where they carry a CRC.  The file store is
    untouched and the stream is closed. *)
Theorem download_transfer_crc cfg fuel req n st f :
  badgelink_xfer_type st = BADGELINK_XFER_NONE ->
  nodes (os st) !! req_path req = Some (File f) ->
  faulty f = false ->
  Z.of_nat (length (f_data f)) < 2 ^ 32 ->
  (length (f_data f) < fuel)%nat ->
  (length (f_data f) <= n * CHUNK_SIZE cfg)%nat ->
  (2 <= protocol_version st -> fstat_fault (os st) = None) ->
  exists st1 st3,
    badgelink_fs_download fuel req st = Some st1 /\
    download_transfer cfg fuel req n st = Some st3 /\
    chunk_bytes (emitted st1 (download_run cfg n st1)) = f_data f /\
    emitted st st1
      = [ {| status_code := StatusOk;
             resp := RespFsCrc32 (if 2 <=? protocol_version st then 0
                                  else crc32 (f_data f))
                       (Z.of_nat (length (f_data f))) |} ] /\
    emitted (download_run cfg n st1) st3
      = [ {| status_code := StatusOk;
             resp := if 2 <=? protocol_version st
                     then RespFsCrc32 (crc32 (f_data f)) (Z.of_nat (length (f_data f)))
                     else RespNone |} ] /\
    nodes (os st3) = nodes (os st) /\
    streams (os st3) !! next_stream (os st) = None.
Proof.
  intros Hidle Hf Hclean Hsize Hfuel Hn Hstat.
  pose proof (read_limit_clean f Hclean) as Hlim.
  assert (Hstart : exists st1 s1,
             badgelink_fs_download fuel req st = Some st1 /\
             sent st1 = sent st ++
               [ {| status_code := StatusOk;
                    resp := RespFsCrc32 (if 2 <=? protocol_version st then 0
                                         else crc32 (f_data f))
                              (Z.of_nat (length (f_data f))) |} ] /\
             xfer_stream st1 (next_stream (os st)) s1 f /\
             s_pos s1 = 0%nat /\ s_err s1 = false /\
             nodes (os st1) = nodes (os st) /\
             protocol_version st1 = protocol_version st /\
             badgelink_xfer_is_upload st1 = false /\
             badgelink_xfer_size st1 = Z.of_nat (length (f_data f)) /\
             (2 <= protocol_version st -> running_crc st1 = 0)).
  { destruct (2 <=? protocol_version st) eqn:E.
    - apply Z.leb_le in E.
      destruct (download_v2_started fuel req st f Hidle Hf E (Hstat E))
        as (st1 & Hrun & Hs & Hx & Hn1 & Hv1 & Hu1 & Hsz1 & Hrc1).
      rewrite wrap32_small in * by lia.
      eexists st1, _. repeat (split; [eassumption || reflexivity|]). intros _. exact Hrc1.
    - apply Z.leb_gt in E.
      destruct (download_v1_started fuel req st f Hidle Hf E)
        as (st1 & s1 & Hrun & Hs & Hx & Hp1 & He1 & Hn1 & Hv1 & Hu1 & Hsz1); [lia|].
      rewrite Hlim, firstn_all, wrap32_small in * by lia.
      exists st1, s1. repeat (split; [eassumption || congruence|]). lia. }
  destruct Hstart as (st1 & s1 & Hrun & Hs & Hx & Hp1 & He1 & Hn1 & Hv1 & Hu1 & Hsz1 & Hrc1).
  destruct (download_run_chunks cfg n st1 _ s1 f Hx He1) as
    (s2 & ps & Hs2 & _ & _ & Hb & Hx2 & _ & _ & Hn2); [lia|now left|].
  rewrite Hp1, drop_0, Nat.sub_0_r, Hlim, Nat.min_r, firstn_all in Hb by lia.
  destruct (download_run_spec cfg n st1) as (ps' & Hs2' & Hcrc & Hv2 & Hu2 & Hsz2 & Hfd2).
  assert (ps' = ps) by (rewrite Hs2 in Hs2'; now apply app_inv_head in Hs2').
  subst ps'. rewrite Hb, Hv1 in Hcrc.
  exists st1, (badgelink_fs_xfer_stop false (download_run cfg n st1)).
  split; [exact Hrun|]. split; [unfold download_transfer; now rewrite Hrun|].
  split; [rewrite (emitted_app _ _ _ Hs2); exact Hb|].
  split; [exact (emitted_app _ _ _ Hs)|].
  destruct Hx as (Hfd1 & _).
  rewrite xfer_stop_download by congruence.
  rewrite Hv2, Hv1, Hsz2, Hsz1, Hfd2, Hfd1, Hcrc.
  destruct (2 <=? protocol_version st) eqn:E.
  - apply Z.leb_le in E. rewrite (Hrc1 E). fold (crc32 (f_data f)).
    split; [now apply emitted_send|]. cbn. split; [congruence|apply lookup_delete_eq].
  - split; [now apply emitted_status|]. cbn. split; [congruence|apply lookup_delete_eq].
Qed.

Lemma download_transfer_crc_witness :
  let req := req_for "/a.bin" 0 0 in
  let f := {| f_data := bytes_of "123456789"; f_rfault := None |} in
  nodes (os (idle 2)) !! req_path req = Some (File f) /\
  (length (f_data f) <= 3 * CHUNK_SIZE cfg0)%nat /\
  exists st1 st3,
    download_transfer cfg0 16 req 3 (idle 2) = Some st3 /\
    chunk_bytes (emitted st1 (download_run cfg0 3 st1)) = bytes_of "123456789" /\
    emitted (idle 2) st1
      = [ {| status_code := StatusOk; resp := RespFsCrc32 0 9 |} ] /\
    emitted (download_run cfg0 3 st1) st3
      = [ {| status_code := StatusOk; resp := RespFsCrc32 0xCBF43926 9 |} ].
Proof.
  intros req f.
  assert (Hf : nodes (os (idle 2)) !! req_path req = Some (File f))
    by (vm_compute; reflexivity).
  assert (Hn : (length (f_data f) <= 3 * CHUNK_SIZE cfg0)%nat) by (cbn; lia).
  destruct (download_transfer_crc cfg0 16 req 3 (idle 2) f eq_refl Hf eq_refl
              ltac:(cbn; lia) ltac:(cbn; lia) Hn ltac:(reflexivity))
    as (st1 & st3 & _ & Ht & Hb & Hs & Hfin & _).
  change (2 <=? protocol_version (idle 2)) with true in Hs, Hfin. cbv iota in Hs, Hfin.
  assert (Hcrc : crc32 (f_data f) = 0xCBF43926) by (vm_compute; reflexivity).
  rewrite Hcrc in Hfin.
  split; [exact Hf|]. split; [exact Hn|]. exists st1, st3. from_hyps.
Defined.

(** X13: A version 1 download of a file whose medium fails inside it starts
    with StatusOk (the scan takes the fault for the end of the file) but
    never delivers a byte: the error indicator the scan raised is still
    up after the rewind, and every XferContinue is answered
    StatusInternalError. *)
Theorem download_v1_fault_never_delivers cfg fuel req st f k n :
  badgelink_xfer_type st = BADGELINK_XFER_NONE ->
  nodes (os st) !! req_path req = Some (File f) ->
  protocol_version st < 2 ->
  f_rfault f = Some k ->
  (k < length (f_data f))%nat ->
  (k < fuel)%nat ->
  exists st1,
    badgelink_fs_download fuel req st = Some st1 /\
    last_status st1 = Some StatusOk /\
    emitted st1 (download_run cfg n st1) = replicate n int_err_packet.
Proof.
  intros Hidle Hf Hv Hfault Hk Hfuel.
  destruct (read_limit_faulty f k Hfault Hk) as [Hlim Hbad].
  destruct (download_v1_started fuel req st f Hidle Hf Hv)
    as (st1 & s1 & Hrun & Hs & (Hfd & Hs1 & _) & _ & He1 & _); [lia|].
  exists st1. split; [exact Hrun|]. split.
  - unfold last_status. rewrite Hs, last_snoc. reflexivity.
  - assert (Herr : ferror (xfer_fd st1) (os st1) = true).
    { unfold ferror. rewrite Hfd, Hs1, He1. exact Hbad. }
    destruct (download_run_error cfg n st1 Herr) as (Hs2 & _).
    exact (emitted_app _ _ _ Hs2).
Qed.

Lemma download_v1_fault_never_delivers_witness :
  let req := req_for "/bad.bin" 0 0 in
  let f := {| f_data := bytes_of "123456789"; f_rfault := Some 4%nat |} in
  nodes (os (idle 1)) !! req_path req = Some (File f) /\
  protocol_version (idle 1) < 2 /\ (4 < length (f_data f))%nat /\
  exists st1,
    badgelink_fs_download 16 req (idle 1) = Some st1 /\
    last_status st1 = Some StatusOk /\
    emitted st1 (download_run cfg0 2 st1) = replicate 2 int_err_packet.
Proof.
  intros req f.
  assert (Hf : nodes (os (idle 1)) !! req_path req = Some (File f))
    by (vm_compute; reflexivity).
  assert (Hv : protocol_version (idle 1) < 2) by (cbn; lia).
  assert (Hk : (4 < length (f_data f))%nat) by (cbn; lia).
  destruct (download_v1_fault_never_delivers cfg0 16 req (idle 1) f 4%nat 2
              eq_refl Hf Hv eq_refl Hk ltac:(lia)) as (st1 & Hrun & Hl & He).
  split; [exact Hf|]. split; [exact Hv|]. split; [exact Hk|].
  exists st1. from_hyps.
Defined.

(** ** One response per request *)



(** ** 32-bit variables stay 32-bit *)













(** ** Delete, mkdir, rmdir *)

(** X16: A delete request removes a regular file and nothing else: on a file
    it answers StatusOk and the file is gone, on a directory StatusIsDir
    and on a missing path StatusNotFound, both with the file store
    unchanged.  The open streams are never touched. *)
Theorem delete_outcome req st :
  (forall f, nodes (os st) !! req_path req = Some (File f) ->
   emitted st (badgelink_fs_delete req st)
     = [ {| status_code := StatusOk; resp := RespNone |} ] /\
   nodes (os (badgelink_fs_delete req st)) = delete (req_path req) (nodes (os st))) /\
  (forall ents, nodes (os st) !! req_path req = Some (Dir ents) ->
   emitted st (badgelink_fs_delete req st)
     = [ {| status_code := StatusIsDir; resp := RespNone |} ] /\
   nodes (os (badgelink_fs_delete req st)) = nodes (os st)) /\
  (nodes (os st) !! req_path req = None ->
   emitted st (badgelink_fs_delete req st)
     = [ {| status_code := StatusNotFound; resp := RespNone |} ] /\
   nodes (os (badgelink_fs_delete req st)) = nodes (os st)) /\
  streams (os (badgelink_fs_delete req st)) = streams (os st).
Proof.
  unfold badgelink_fs_delete, unlink.
  repeat match goal with |- _ /\ _ => split end.
  - intros f ->. cbn. split; [now apply emitted_status|reflexivity].
  - intros ents ->. cbn. split; [now apply emitted_status|reflexivity].
  - intros ->. cbn. split; [now apply emitted_status|reflexivity].
  - destruct (nodes (os st) !! req_path req) as [[f|ents]|]; reflexivity.
Qed.

Lemma delete_outcome_witness :
  let st := idle 1 in
  nodes (os st) !! "/a.bin"
    = Some (File {| f_data := bytes_of "123456789"; f_rfault := None |}) /\
  emitted st (badgelink_fs_delete (req_for "/a.bin" 0 0) st)
    = [ {| status_code := StatusOk; resp := RespNone |} ] /\
  nodes (os (badgelink_fs_delete (req_for "/a.bin" 0 0) st)) !! "/a.bin" = None /\
  nodes (os st) !! "/nowhere" = None /\
  emitted st (badgelink_fs_delete (req_for "/nowhere" 0 0) st)
    = [ {| status_code := StatusNotFound; resp := RespNone |} ].
Proof.
  intros st.
  assert (H1 : nodes (os st) !! "/a.bin"
               = Some (File {| f_data := bytes_of "123456789"; f_rfault := None |}))
    by (vm_compute; reflexivity).
  assert (H2 : nodes (os st) !! "/nowhere" = None) by (vm_compute; reflexivity).
  destruct (proj1 (delete_outcome (req_for "/a.bin" 0 0) st) _ H1) as [E1 N1].
  destruct (proj1 (proj2 (proj2 (delete_outcome (req_for "/nowhere" 0 0) st))) H2)
    as [E2 _].
  assert (G : nodes (os (badgelink_fs_delete (req_for "/a.bin" 0 0) st)) !! "/a.bin" = None)
    by (rewrite N1; apply lookup_delete_eq).
  from_hyps.
Defined.



(** X18: A rmdir request removes an empty directory and nothing else: on a
    missing path it answers StatusNotFound, on a regular file
    StatusIsFile, on a directory that is not empty StatusNotEmpty, all
    three with the file store unchanged; on an empty directory it
    answers StatusOk and the directory is gone. *)
Theorem rmdir_outcome req st :
  (nodes (os st) !! req_path req = None ->
   emitted st (badgelink_fs_rmdir req st)
     = [ {| status_code := StatusNotFound; resp := RespNone |} ] /\
   nodes (os (badgelink_fs_rmdir req st)) = nodes (os st)) /\
  (forall f, nodes (os st) !! req_path req = Some (File f) ->
   emitted st (badgelink_fs_rmdir req st)
     = [ {| status_code := StatusIsFile; resp := RespNone |} ] /\
   nodes (os (badgelink_fs_rmdir req st)) = nodes (os st)) /\
  (forall ents, nodes (os st) !! req_path req = Some (Dir ents) ->
   forallb is_dot ents && negb (has_child (req_path req) (os st)) = false ->
   emitted st (badgelink_fs_rmdir req st)
     = [ {| status_code := StatusNotEmpty; resp := RespNone |} ] /\
   nodes (os (badgelink_fs_rmdir req st)) = nodes (os st)) /\
  (forall ents, nodes (os st) !! req_path req = Some (Dir ents) ->
   forallb is_dot ents && negb (has_child (req_path req) (os st)) = true ->
   emitted st (badgelink_fs_rmdir req st)
     = [ {| status_code := StatusOk; resp := RespNone |} ] /\
   nodes (os (badgelink_fs_rmdir req st)) = delete (req_path req) (nodes (os st))).
Proof.
  unfold badgelink_fs_rmdir, rmdir.
  repeat match goal with |- _ /\ _ => split end.
  - intros ->. cbn. split; [now apply emitted_status|reflexivity].
  - intros f ->. cbn. split; [now apply emitted_status|reflexivity].
  - intros ents -> ->. cbn. split; [now apply emitted_status|reflexivity].
  - intros ents -> ->. cbn. split; [now apply emitted_status|reflexivity].
Qed.

Lemma rmdir_outcome_witness :
  let st := idle 1 in
  nodes (os st) !! "/nowhere" = None /\
  emitted st (badgelink_fs_rmdir (req_for "/nowhere" 0 0) st)
    = [ {| status_code := StatusNotFound; resp := RespNone |} ] /\
  nodes (os st) !! "/a.bin"
    = Some (File {| f_data := bytes_of "123456789"; f_rfault := None |}) /\
  emitted st (badgelink_fs_rmdir (req_for "/a.bin" 0 0) st)
    = [ {| status_code := StatusIsFile; resp := RespNone |} ] /\
  emitted st (badgelink_fs_rmdir (req_for "/d" 0 0) st)
    = [ {| status_code := StatusNotEmpty; resp := RespNone |} ].
Proof.
  intros st.
  assert (H1 : nodes (os st) !! "/nowhere" = None) by (vm_compute; reflexivity).
  assert (H2 : nodes (os st) !! "/a.bin"
               = Some (File {| f_data := bytes_of "123456789"; f_rfault := None |}))
    by (vm_compute; reflexivity).
  assert (H3 : nodes (os st) !! "/d"
               = Some (Dir [ {| d_name := "."; d_type := DT_DIR |};
                             {| d_name := ".."; d_type := DT_DIR |};
                             {| d_name := "a.txt"; d_type := DT_REG |} ]))
    by (vm_compute; reflexivity).
  destruct (proj1 (rmdir_outcome (req_for "/nowhere" 0 0) st) H1) as [E1 _].
  destruct (proj1 (proj2 (rmdir_outcome (req_for "/a.bin" 0 0) st)) _ H2) as [E2 _].
  destruct (proj1 (proj2 (proj2 (rmdir_outcome (req_for "/d" 0 0) st))) _ H3
              ltac:(vm_compute; reflexivity)) as [E3 _].
  from_hyps.
Defined.

Lemma dirname_length s d : dirname s = Some d -> (String.length d < String.length s)%nat.
Proof.
  revert d. induction s as [|c s IH]; intros d; cbn; [discriminate|].
  destruct (dirname s) as [d'|].
  - intros H. injection H as <-. cbn. specialize (IH d' eq_refl). lia.
  - destruct (Ascii.eqb c "/"); [|discriminate].
    intros H. injection H as <-. cbn. lia.
Qed.

Lemma inside_self p : inside p p = false.
Proof.
  unfold inside. destruct (dirname p) as [d|] eqn:E; [|reflexivity].
  apply dirname_length in E. apply String.eqb_neq. intros ->. lia.
Qed.

Lemma has_child_insert_self p nd os0 :
  has_child p os0 = false ->
  has_child p (set_nodes (<[p := nd]> (nodes os0)) os0) = false.
Proof.
  unfold has_child. cbn [nodes set_nodes]. intros Hno.
  apply not_true_iff_false. intros Hyes. apply not_true_iff_false in Hno. apply Hno.
  apply existsb_exists in Hyes as (k & Hin & Hk). apply existsb_exists.
  exists k. split; [|exact Hk].
  apply in_map_iff in Hin as ([k' v] & <- & Hin). cbn in *.
  apply list_elem_of_In, elem_of_map_to_list in Hin.
  destruct (decide (p = k')) as [->|Hne].
  - now rewrite inside_self in Hk.
  - rewrite lookup_insert_ne in Hin by assumption.
    apply in_map_iff. exists (k', v). split; [reflexivity|].
    now apply list_elem_of_In, elem_of_map_to_list.
Qed.

(** X19: Creating a directory and removing it again leaves the file store as
    it was: on a free path whose directory exists and that has no path
    inside it, mkdir then rmdir are both answered StatusOk and every
    path of the store maps to what it did before. *)
Theorem mkdir_rmdir_round_trip req st :
  nodes (os st) !! req_path req = None ->
  parent_exists (req_path req) (os st) = true ->
  has_child (req_path req) (os st) = false ->
  emitted st (badgelink_fs_mkdir req st)
    = [ {| status_code := StatusOk; resp := RespNone |} ] /\
  emitted (badgelink_fs_mkdir req st) (badgelink_fs_rmdir req (badgelink_fs_mkdir req st))
    = [ {| status_code := StatusOk; resp := RespNone |} ] /\
  nodes (os (badgelink_fs_rmdir req (badgelink_fs_mkdir req st))) = nodes (os st).
Proof.
  intros Hfree Hparent Hchild.
  assert (Hmk : badgelink_fs_mkdir req st
                = badgelink_status_ok
                    (set_os (set_nodes (<[req_path req := Dir []]> (nodes (os st))) (os st)) st)).
  { unfold badgelink_fs_mkdir, mkdir. now rewrite Hfree, Hparent. }
  rewrite Hmk. split; [now apply emitted_status|].
  unfold badgelink_fs_rmdir, rmdir. cbn [os badgelink_status_ok badgelink_send_status
    badgelink_send_packet set_os nodes set_nodes].
  rewrite lookup_insert_eq. cbn [forallb andb].
  pose proof (has_child_insert_self (req_path req) (Dir []) (os st) Hchild) as Hc.
  cbn [set_nodes] in Hc. rewrite Hc. cbn [negb].
  split; [now apply emitted_status|].
  cbn. rewrite delete_insert_eq. now apply delete_id.
Qed.

Lemma mkdir_rmdir_round_trip_witness :
  let st := idle 1 in
  let req := req_for "/d/e" 0 0 in
  nodes (os st) !! req_path req = None /\
  parent_exists (req_path req) (os st) = true /\
  has_child (req_path req) (os st) = false /\
  emitted (badgelink_fs_mkdir req st) (badgelink_fs_rmdir req (badgelink_fs_mkdir req st))
    = [ {| status_code := StatusOk; resp := RespNone |} ] /\
  nodes (os (badgelink_fs_rmdir req (badgelink_fs_mkdir req st))) = nodes (os st).
Proof.
  intros st req.
  assert (H1 : nodes (os st) !! req_path req = None) by (vm_compute; reflexivity).
  assert (H2 : parent_exists (req_path req) (os st) = true) by (vm_compute; reflexivity).
  assert (H3 : has_child (req_path req) (os st) = false) by (vm_compute; reflexivity).
  destruct (mkdir_rmdir_round_trip req st H1 H2 H3) as (_ & E & N).
  from_hyps.
Defined.

(** ** Buffered open and close (CONFIG_FATFS_USE_FASTOPEN) *)


(** X21: When no buffer is tracked, [bl_sd_fopen] followed by [bl_sd_fclose]
    of its result leaves the DMA heap as it was, whether the open
    failed, the allocation failed or both succeeded: the buffer given to
    the stream is freed with it, and nothing is tracked afterwards. *)
Theorem fast_open_close_frees_buffer fopen_mode path io os0 :
  bl_fast_file io = None ->
  bl_fast_buffer io = None ->
  next_buf (heap io) ∉ live (heap io) ->
  let opened := bl_sd_fopen_fast fopen_mode path io os0 in
  let closed := bl_sd_fclose_fast (fst (fst opened)) (snd (fst opened)) (snd opened) in
  live (heap (fst closed)) = live (heap io) /\
  room (heap (fst closed)) = room (heap io) /\
  bl_fast_file (fst closed) = None /\
  bl_fast_buffer (fst closed) = None.
Proof.
  intros Hf Hb Hfresh. cbv zeta. unfold bl_sd_fopen_fast.
  destruct (fopen_mode path os0) as [[h|] os1]; [|cbn; auto].
  unfold heap_caps_malloc. destruct (room (heap io)) as [|r] eqn:Hr.
  - cbn. rewrite Hb. cbn. auto.
  - cbn. rewrite bool_decide_eq_true_2 by reflexivity. cbn.
    split; [|auto]. apply set_eq. intros x. set_unfold.
    split; [intros [[->|Hx] Hne]; [now destruct Hne|exact Hx]|].
    intros Hx. split; [now right|]. intros ->. now apply Hfresh.
Qed.

Lemma fast_open_close_frees_buffer_witness :
  let opened := bl_sd_fopen_fast fopen_rb "/a.bin" fastio0 libc0 in
  let closed := bl_sd_fclose_fast (fst (fst opened)) (snd (fst opened)) (snd opened) in
  bl_fast_file fastio0 = None /\ bl_fast_buffer fastio0 = None /\
  (next_buf (heap fastio0) ∉ live (heap fastio0)) /\
  bl_fast_buffer (snd (fst opened)) = Some 0%nat /\
  live (heap (fst closed)) = live (heap fastio0) /\
  room (heap (fst closed)) = room (heap fastio0) /\
  bl_fast_buffer (fst closed) = None.
Proof.
  intros opened closed.
  assert (H1 : bl_fast_file fastio0 = None) by reflexivity.
  assert (H2 : bl_fast_buffer fastio0 = None) by reflexivity.
  assert (H3 : next_buf (heap fastio0) ∉ live (heap fastio0)) by (cbn; set_solver).
  assert (H4 : bl_fast_buffer (snd (fst opened)) = Some 0%nat) by (vm_compute; reflexivity).
  destruct (fast_open_close_frees_buffer fopen_rb "/a.bin" fastio0 libc0 H1 H2 H3)
    as (L & R & _ & B).
  from_hyps.
Defined.

(** X22: The bookkeeping has one slot.  When a second stream is opened with a
    buffer while the first is still open, the first stream's buffer is
    forgotten: after both streams are closed, in either order, that
    buffer is still allocated and nothing tracks it any more. *)
Theorem fast_second_open_leaks_first_buffer fopen_mode p1 p2 io os0 h1 os1 h2 os2 :
  fopen_mode p1 os0 = (Some h1, os1) ->
  fopen_mode p2 os1 = (Some h2, os2) ->
  h1 <> h2 ->
  (2 <= room (heap io))%nat ->
  next_buf (heap io) ∉ live (heap io) ->
  let io1 := snd (fst (bl_sd_fopen_fast fopen_mode p1 io os0)) in
  let io2 := snd (fst (bl_sd_fopen_fast fopen_mode p2 io1 os1)) in
  let first_then_second :=
    fst (bl_sd_fclose_fast (Some h2) (fst (bl_sd_fclose_fast (Some h1) io2 os2))
           (snd (bl_sd_fclose_fast (Some h1) io2 os2))) in
  let second_then_first :=
    fst (bl_sd_fclose_fast (Some h1) (fst (bl_sd_fclose_fast (Some h2) io2 os2))
           (snd (bl_sd_fclose_fast (Some h2) io2 os2))) in
  bl_fast_buffer io1 = Some (next_buf (heap io)) /\
  (next_buf (heap io) ∈ live (heap first_then_second) /\
   bl_fast_buffer first_then_second = None) /\
  (next_buf (heap io) ∈ live (heap second_then_first) /\
   bl_fast_buffer second_then_first = None).
Proof.
  intros Ho1 Ho2 Hne Hroom Hfresh. cbv zeta.
  destruct (room (heap io)) as [|[|r]] eqn:Hr; [lia..|].
  assert (Hm : heap_caps_malloc (heap io)
               = (Some (next_buf (heap io)),
                  {| live := {[next_buf (heap io)]} ∪ live (heap io);
                     next_buf := S (next_buf (heap io)); room := S r |}))
    by (unfold heap_caps_malloc; now rewrite Hr).
  unfold bl_sd_fopen_fast. rewrite Ho1, Hm.
  cbn [fst snd heap bl_fast_file bl_fast_buffer]. rewrite Ho2.
  unfold heap_caps_malloc. cbn [fst snd heap bl_fast_file bl_fast_buffer room next_buf live].
  split; [reflexivity|].
  unfold bl_sd_fclose_fast. cbn [fst snd heap bl_fast_file bl_fast_buffer].
  repeat (case_bool_decide; try congruence;
          cbn [fst snd heap bl_fast_file bl_fast_buffer free live]).
  split; (split; [|reflexivity]); set_solver by lia.
Qed.

Lemma fast_second_open_leaks_first_buffer_witness :
  let io := {| bl_fast_file := None; bl_fast_buffer := None;
               heap := {| live := ∅; next_buf := 0%nat; room := 2%nat |} |} in
  let os1 := snd (fopen_rb "/a.bin" libc0) in
  let os2 := snd (fopen_rb "/bad.bin" os1) in
  let io1 := snd (fst (bl_sd_fopen_fast fopen_rb "/a.bin" io libc0)) in
  let io2 := snd (fst (bl_sd_fopen_fast fopen_rb "/bad.bin" io1 os1)) in
  fopen_rb "/a.bin" libc0 = (Some 3%nat, os1) /\
  fopen_rb "/bad.bin" os1 = (Some 4%nat, os2) /\
  (2 <= room (heap io))%nat /\
  0%nat ∈ live (heap (fst (bl_sd_fclose_fast (Some 3%nat)
                             (fst (bl_sd_fclose_fast (Some 4%nat) io2 os2))
                             (snd (bl_sd_fclose_fast (Some 4%nat) io2 os2))))).
Proof.
  intros io os1 os2 io1 io2.
  assert (H1 : fopen_rb "/a.bin" libc0 = (Some 3%nat, os1)) by (vm_compute; reflexivity).
  assert (H2 : fopen_rb "/bad.bin" os1 = (Some 4%nat, os2)) by (vm_compute; reflexivity).
  assert (H3 : (2 <= room (heap io))%nat) by (cbn; lia).
  assert (H4 : next_buf (heap io) ∉ live (heap io)) by (cbn; set_solver).
  destruct (fast_second_open_leaks_first_buffer fopen_rb "/a.bin" "/bad.bin" io libc0
              3%nat os1 4%nat os2 H1 H2 ltac:(lia) H3 H4) as (_ & _ & (L & _)).
  from_hyps.
Defined.
